(** * tang-image: admission and provider-dispatch pipeline of the image bot

    A shallow embedding of [main.py] and [image_provider.py]:
    the delivery de-duplication guard, the access guard, the prompt
    prefix policy, the two provider adapters and the message handlers,
    followed by the properties the specification states about them. *)

From Stdlib Require Import ZArith NArith Ascii String Strings.Byte List Lia.
From Stdlib Require Import Floats.PrimFloat.
From stdpp Require Import base tactics option list gmap sets pretty.

Open Scope Z_scope.

(** ** Python strings

    A [str] is a sequence of Unicode code points. *)

Abbreviation bytes := (list byte) (only parsing).

(** ASCII literal as a [str]. *)
Fixpoint lit (s : string) : list N :=
  match s with
  | EmptyString => []
  | String a s' => N_of_ascii a :: lit s'
  end.

(** [str.isspace] on one code point: the characters [str.strip] and
    [str.split] treat as whitespace. *)
Definition isspace (c : N) : bool :=
  ((9 <=? c) && (c <=? 13) || (28 <=? c) && (c <=? 32)
   || (c =? 133) || (c =? 160) || (c =? 5760)
   || (8192 <=? c) && (c <=? 8202)
   || (c =? 8232) || (c =? 8233) || (c =? 8239) || (c =? 8287)
   || (c =? 12288))%N.

Fixpoint lstrip (s : list N) : list N :=
  match s with
  | [] => []
  | c :: s' => if isspace c then lstrip s' else s
  end.

Definition rstrip (s : list N) : list N := reverse (lstrip (reverse s)).

(** [s.strip()] *)
Definition strip (s : list N) : list N := rstrip (lstrip s).

(** The maximal whitespace-free prefix of [s], and what follows it. *)
Fixpoint span_word (s : list N) : list N * list N :=
  match s with
  | [] => ([], [])
  | c :: s' =>
      if isspace c then ([], s)
      else let '(w, r) := span_word s' in (c :: w, r)
  end.

(** [s.split(maxsplit=1)]: leading whitespace is skipped, the first word
    is cut off, the whitespace after it is skipped, and what remains (if
    anything) is kept whole, trailing whitespace included. *)
Definition split1 (s : list N) : list (list N) :=
  match lstrip s with
  | [] => []
  | t =>
      let '(w, r) := span_word t in
      match lstrip r with
      | [] => [w]
      | rest => [w; rest]
      end
  end.

Fixpoint startswith (s p : list N) : bool :=
  match p, s with
  | [], _ => true
  | _ :: _, [] => false
  | a :: p', b :: s' => (a =? b)%N && startswith s' p'
  end.

(** [p in s] for strings: [p] occurs as a contiguous run of [s]. *)
Fixpoint contains (s p : list N) : bool :=
  startswith s p ||
  match s with
  | [] => false
  | _ :: s' => contains s' p
  end.

(** Python truthiness of a [str] / [bytes] / list value. *)
Definition nonempty {A} (l : list A) : bool :=
  match l with [] => false | _ => true end.

(** [str(n)] for an [int]. *)
Definition str_of_int (n : Z) : list N := lit (pretty n).

(** ** De-duplication guard (main.py, lines 75-91) *)

(** A message as the handlers read it. [from_user_id] is
    [update.effective_user.id]: the sender, present on every message. *)
Inductive ChatType := SENDER | PRIVATE | GROUP | SUPERGROUP | CHANNEL.

Record Message := {
  chat_id : Z;
  chat_type : ChatType;
  message_id : Z;
  from_user_id : Z;
  text : option (list N)
}.

(** [update.message] is [None] for updates that are not new messages
    (edited messages, channel posts). *)
Record Update := { message : option Message }.

Definition _MAX_SEEN : Z := 5000.

(** [_SEEN_MSGS] is a set, [_SEEN_ORDER] a deque appended on the right
    and popped on the left. *)
Record Seen := {
  _SEEN_MSGS : gset (Z * Z);
  _SEEN_ORDER : list (Z * Z)
}.

Definition seen_init : Seen := {| _SEEN_MSGS := ∅; _SEEN_ORDER := [] |}.

Definition key_of (m : Message) : Z * Z := (chat_id m, message_id m).

(** The body of [_already_processed] once [msg] is known to be present. *)
Definition seen_key (s : Seen) (key : Z * Z) : bool * Seen :=
  if bool_decide (key ∈ _SEEN_MSGS s) then (true, s)
  else
    let msgs := {[key]} ∪ _SEEN_MSGS s in
    let order := _SEEN_ORDER s ++ [key] in
    if Z.of_nat (length order) >? _MAX_SEEN then
      match order with
      | old :: order' =>
          (false, {| _SEEN_MSGS := msgs ∖ {[old]}; _SEEN_ORDER := order' |})
      | [] => (* popleft on an empty deque: not reachable after the append *)
          (false, {| _SEEN_MSGS := msgs; _SEEN_ORDER := order |})
      end
    else (false, {| _SEEN_MSGS := msgs; _SEEN_ORDER := order |}).

Definition _already_processed (s : Seen) (u : Update) : bool * Seen :=
  match message u with
  | None => (false, s)
  | Some msg => seen_key s (key_of msg)
  end.

(** The window invariant: the deque has no repetition, the set holds
    exactly its elements, and it is no longer than [_MAX_SEEN]. *)
Record seen_inv (s : Seen) : Prop := {
  inv_nodup : NoDup (_SEEN_ORDER s);
  inv_same : ∀ k, k ∈ _SEEN_MSGS s ↔ k ∈ _SEEN_ORDER s;
  inv_bound : Z.of_nat (length (_SEEN_ORDER s)) <= _MAX_SEEN
}.

(** Feeding a list of identities to the guard, oldest first. *)
Definition seen_all (s : Seen) (ks : list (Z * Z)) : Seen :=
  foldl (λ s k, (seen_key s k).2) s ks.

(** States the guard can be in: reached from the empty window. *)
Inductive seen_reachable : Seen → Prop :=
  | reach_init : seen_reachable seen_init
  | reach_step s u : seen_reachable s → seen_reachable (_already_processed s u).2.

(** ** Configuration read from the environment at import time *)

Record Config := {
  _allow_ids : gset Z;
  ACCESS_CODE : list N;
  REF_BYTES : bytes;
  PROVIDER : list N;
  OPENAI_API_KEY : list N;
  OPENAI_BASE_URL : list N;
  OPENAI_MODEL : list N;
  OPENAI_IMG_SIZE : list N;
  OPENAI_MASK_PATH : list N;
  DEFAULT_PROMPT_PREFIX : list N;
  STABILITY_API_KEY : list N;
  STABILITY_ENGINE : list N;
  (** [str(STABILITY_STRENGTH)], the float already printed *)
  STABILITY_STRENGTH_str : list N;
  STABILITY_CFG : Z;
  STABILITY_STEPS : Z;
  STABILITY_SEED : option (list N)
}.

(** ** Access guard (main.py, lines 96-106) *)

Definition _is_allowed_user (cfg : Config) (_redeemed_ids : gset Z) (user_id : Z) : bool :=
  if bool_decide (_allow_ids cfg ≠ ∅) then
    if bool_decide (user_id ∈ _allow_ids cfg) then true
    else if nonempty (ACCESS_CODE cfg) && bool_decide (user_id ∈ _redeemed_ids) then true
    else false
  else if nonempty (ACCESS_CODE cfg) then bool_decide (user_id ∈ _redeemed_ids)
  else true.

(** [text or ""] *)
Definition text_or_empty (m : Message) : list N := default [] (text m).

(** [extract_pic_prompt] (main.py, lines 108-119), on the message of the update. *)
Definition extract_pic_prompt (m : Message) : list N :=
  let text := strip (text_or_empty m) in
  if negb (nonempty text) then []
  else
    match split1 text with
    | [] => []
    | p0 :: rest =>
        if startswith p0 (lit "/pic") then
          match rest with
          | [] => []
          | p1 :: _ => strip p1
          end
        else []
    end.

(** ** Values and HTTP exchanges of the provider adapters *)

(** What [r.json()] returns: Python values built from JSON. A [dict] is
    kept as its list of items (keys pairwise distinct). *)
#[local] Set Warnings "-register-all".
Inductive json :=
  | JNull
  | JBool (b : bool)
  | JInt (n : Z)
  | JFloat (f : float)
  | JStr (s : list N)
  | JArr (l : list json)
  | JObj (d : list (list N * json)).

(** Python truthiness, as tested by [not v] and [if v]. *)
Definition truthy (v : json) : bool :=
  match v with
  | JNull => false
  | JBool b => b
  | JInt n => negb (n =? 0)
  | JFloat f => negb (PrimFloat.eqb f PrimFloat.zero)
  | JStr s => nonempty s
  | JArr l => nonempty l
  | JObj d => nonempty d
  end.

Fixpoint dict_lookup (d : list (list N * json)) (k : list N) : option json :=
  match d with
  | [] => None
  | (k', v) :: d' => if bool_decide (k' = k) then Some v else dict_lookup d' k
  end.

(** [d.get(k)] and [d.get(k, dflt)] *)
Definition dict_get (d : list (list N * json)) (k : list N) : json :=
  default JNull (dict_lookup d k).
Definition dict_get_default (d : list (list N * json)) (k : list N) (dflt : json) : json :=
  default dflt (dict_lookup d k).

(** A library call that returns or raises; [PyExc e] carries [str(e)]. *)
Inductive pyresult (A : Type) :=
  | PyOk (a : A)
  | PyExc (e : list N).
Arguments PyOk {A} a.
Arguments PyExc {A} e.

(** One part of a multipart upload: (filename, content, content type). *)
Record FilePart := {
  fp_filename : list N;
  fp_content : bytes;
  fp_ctype : list N
}.

Record Request := {
  req_url : list N;
  req_headers : list (list N * list N);
  req_data : list (list N * list N);
  req_files : list (list N * FilePart)
}.

Record Response := {
  status_code : Z;
  resp_text : list N;                (* r.text *)
  resp_content : bytes;              (* r.content *)
  resp_content_type : option (list N); (* the Content-Type header, if any *)
  resp_json : pyresult json          (* r.json() *)
}.

(** What the outside world answers during one delivery: the provider's
    reply to the POST ([None]: the client raised, e.g. a timeout), the
    download of a result URL ([PyExc]: the GET or [raise_for_status]
    raised), and the mask file ([None]: not a file, or unreadable). *)
Record World := {
  http_post : Request → option Response;
  http_get : json → pyresult bytes;
  read_mask : list N → option bytes
}.

(** How a call of the provider layer ends: with a value, with
    [ImageGenError(msg)], or with any other exception. *)
Inductive Outcome (A : Type) :=
  | Return (a : A)
  | RaiseImageGenError (msg : list N)
  | RaiseOther.
Arguments Return {A} a.
Arguments RaiseImageGenError {A} msg.
Arguments RaiseOther {A}.

(** What a handler does that is visible outside the process. *)
Inductive Event :=
  | HttpPost (req : Request)
  | HttpGet (url : json)
  | SendAction
  | ReplyText (txt : list N)
  | ReplyPhoto (photo : bytes) (filename caption : list N).

(** ** Provider layer (image_provider.py) *)

Section Provider.

(** [base64.b64decode], applied to whatever value the response holds. *)
Variable b64decode : json → pyresult bytes.

Definition _prepend_prefix (cfg : Config) (prompt : list N) : list N :=
  if nonempty (DEFAULT_PROMPT_PREFIX cfg) then
    strip (DEFAULT_PROMPT_PREFIX cfg ++ lit " " ++ prompt)
  else prompt.

Definition png_part (name : string) (content : bytes) : FilePart :=
  {| fp_filename := lit name; fp_content := content; fp_ctype := lit "image/png" |}.

(** The multipart request of [_openai_img_edit] (lines 58-79). *)
Definition openai_request (cfg : Config) (w : World) (prompt : list N) (ref_png_bytes : bytes) : Request :=
  {| req_url := OPENAI_BASE_URL cfg ++ lit "/images/edits";
     req_headers := [(lit "Authorization", lit "Bearer " ++ OPENAI_API_KEY cfg)];
     req_data := [(lit "model", OPENAI_MODEL cfg);
                  (lit "prompt", prompt);
                  (lit "size", OPENAI_IMG_SIZE cfg);
                  (lit "n", lit "1")];
     req_files :=
       (lit "image", png_part "ref.png" ref_png_bytes) ::
       (if nonempty (OPENAI_MASK_PATH cfg) then
          match read_mask w (OPENAI_MASK_PATH cfg) with
          | Some m => [(lit "mask", png_part "mask.png" m)]
          | None => []
          end
        else []) |}.

(** Lines 83-110: what [_openai_img_edit] makes of the response [r]. *)
Definition openai_response (w : World) (r : Response) : list Event * Outcome bytes :=
  if negb (status_code r =? 200) then
    ([], RaiseImageGenError
           (lit "OpenAI error " ++ str_of_int (status_code r) ++ lit ": " ++ resp_text r))
  else
    match resp_json r with
    | PyExc _ => ([], RaiseOther)
    | PyOk (JObj js) =>
        let data := dict_get js (lit "data") in
        if negb (truthy data) then ([], RaiseImageGenError (lit "OpenAI returned no data"))
        else
          match data with
          | JArr (JObj first :: _) =>
              let b64 := dict_get first (lit "b64_json") in
              if truthy b64 then
                match b64decode b64 with
                | PyOk img => ([], Return img)
                | PyExc e =>
                    ([], RaiseImageGenError (lit "Failed to decode OpenAI base64 image: " ++ e))
                end
              else
                let url_field := dict_get first (lit "url") in
                if truthy url_field then
                  ([HttpGet url_field],
                   match http_get w url_field with
                   | PyOk img => Return img
                   | PyExc e =>
                       RaiseImageGenError (lit "Failed to download image from OpenAI URL: " ++ e)
                   end)
                else
                  ([], RaiseImageGenError
                         (lit "No image payload in OpenAI response (no b64_json or url)."))
          | _ => ([], RaiseOther)   (* [js["data"][0]] or [first.get] raises *)
          end
    | PyOk _ => ([], RaiseOther)    (* [js.get] on a value that is no dict *)
    end.

Definition _openai_img_edit (cfg : Config) (w : World) (prompt : list N) (ref_png_bytes : bytes)
  : list Event * Outcome bytes :=
  if negb (nonempty (OPENAI_API_KEY cfg)) then
    ([], RaiseImageGenError (lit "Missing OPENAI_API_KEY"))
  else
    let req := openai_request cfg w prompt ref_png_bytes in
    match http_post w req with
    | None => ([HttpPost req], RaiseOther)
    | Some r => let '(evs, out) := openai_response w r in (HttpPost req :: evs, out)
    end.

(** The multipart request of [_stability_img2img] (lines 120-135). *)
Definition stability_request (cfg : Config) (prompt : list N) (ref_png_bytes : bytes) : Request :=
  {| req_url := lit "https://api.stability.ai/v1/generation/" ++ STABILITY_ENGINE cfg
                ++ lit "/image-to-image";
     req_headers := [(lit "Authorization", lit "Bearer " ++ STABILITY_API_KEY cfg);
                     (lit "Accept", lit "application/json")];
     req_data := [(lit "text_prompts[0][text]", prompt);
                  (lit "text_prompts[0][weight]", lit "1");
                  (lit "image_strength", STABILITY_STRENGTH_str cfg);
                  (lit "cfg_scale", str_of_int (STABILITY_CFG cfg));
                  (lit "steps", str_of_int (STABILITY_STEPS cfg));
                  (lit "samples", lit "1")]
                 ++ match STABILITY_SEED cfg with
                    | Some seed => if nonempty seed then [(lit "seed", seed)] else []
                    | None => []
                    end;
     req_files := [(lit "init_image", png_part "ref.png" ref_png_bytes)] |}.

(** Lines 139-158: what [_stability_img2img] makes of the response [r]. *)
Definition stability_response (r : Response) : Outcome bytes :=
  if negb (status_code r =? 200) then
    RaiseImageGenError
      (lit "Stability error " ++ str_of_int (status_code r) ++ lit ": " ++ resp_text r)
  else
    let ctype := default [] (resp_content_type r) in
    if contains ctype (lit "application/json") then
      match resp_json r with
      | PyExc e => RaiseImageGenError (lit "Unexpected Stability response format: " ++ e)
      | PyOk (JObj js) =>
          let arts := dict_get_default js (lit "artifacts") (JArr []) in
          if negb (truthy arts) then RaiseImageGenError (lit "No image in Stability response")
          else
            match arts with
            | JArr (JObj a0 :: _) =>
                if negb (truthy (dict_get a0 (lit "base64"))) then
                  RaiseImageGenError (lit "No image in Stability response")
                else
                  match b64decode (dict_get a0 (lit "base64")) with
                  | PyOk img => Return img
                  | PyExc _ => RaiseOther   (* the decoder's own exception *)
                  end
            | _ => RaiseOther   (* [arts[0]] or [arts[0].get] raises *)
            end
      | PyOk _ => RaiseOther    (* [js.get] on a value that is no dict *)
      end
    else if startswith ctype (lit "image/") then Return (resp_content r)
    else RaiseImageGenError (lit "Unrecognized Stability response type: " ++ ctype).

Definition _stability_img2img (cfg : Config) (w : World) (prompt : list N) (ref_png_bytes : bytes)
  : list Event * Outcome bytes :=
  if negb (nonempty (STABILITY_API_KEY cfg)) then
    ([], RaiseImageGenError (lit "Missing STABILITY_API_KEY"))
  else
    let req := stability_request cfg prompt ref_png_bytes in
    match http_post w req with
    | None => ([HttpPost req], RaiseOther)
    | Some r => ([HttpPost req], stability_response r)
    end.

Definition generate_image_from_reference (cfg : Config) (w : World) (prompt : list N)
    (ref_png_bytes : bytes) : list Event * Outcome bytes :=
  let full_prompt := _prepend_prefix cfg prompt in
  if bool_decide (PROVIDER cfg = lit "stability") then
    _stability_img2img cfg w full_prompt ref_png_bytes
  else _openai_img_edit cfg w full_prompt ref_png_bytes.

End Provider.

(** ** Handlers (main.py, lines 124-227) *)

(** The mutable globals: the de-duplication window and the redeemed ids. *)
Record State := {
  seen : Seen;
  _redeemed_ids : gset Z
}.

Definition state_init : State := {| seen := seen_init; _redeemed_ids := ∅ |}.

(** One run of a handler: the state it leaves, what it did, and whether
    it returned ([false]: it was left by an exception nobody catches). *)
Record Run := {
  run_state : State;
  run_events : list Event;
  run_returned : bool
}.

Definition HELP : list N :=
  lit "I generate images from your *text prompt* using this project's fixed reference image."
  ++ [10; 10]%N
  ++ lit "In groups: use `/pic <prompt>`." ++ [10]%N
  ++ lit "In DM: send any prompt text (no command needed) or use `/pic <prompt>`."
  ++ [10; 10]%N
  ++ lit "Commands:" ++ [10]%N
  ++ lit "/start " ++ [8211]%N ++ lit " welcome" ++ [10]%N
  ++ lit "/help " ++ [8211]%N ++ lit " how to use" ++ [10]%N
  ++ lit "/info " ++ [8211]%N ++ lit " what I do" ++ [10]%N
  ++ lit "/status " ++ [8211]%N ++ lit " service status" ++ [10]%N
  ++ lit "/redeem <CODE> " ++ [8211]%N ++ lit " unlock access with a code (if required)"
  ++ [10]%N.

Definition MSG_RESTRICTED_CONTENT : list N :=
  [128683]%N ++ lit " Sorry, this image can" ++ [8217]%N
  ++ lit "t be generated due to copyright or content restrictions.".

Definition MSG_WENT_WRONG : list N :=
  [9888; 65039]%N
  ++ lit " Something went wrong while generating the image. Please try again later.".

Definition MSG_USAGE_PIC : list N := lit "Usage: `/pic <your prompt>`".

Definition MSG_ACCESS_UNLOCKED : list N := [9989]%N ++ lit " Access unlocked!".

(** Calls to the chat API ([reply_text], [reply_photo], [send_action])
    are taken to succeed; each is recorded as an event. *)

Section Handlers.

Variable b64decode : json → pyresult bytes.
(** [str.lower] *)
Variable lower : list N → list N.
Variable cfg : Config.

Definition returned (s : State) (evs : list Event) : Run :=
  {| run_state := s; run_events := evs; run_returned := true |}.
Definition raised (s : State) (evs : list Event) : Run :=
  {| run_state := s; run_events := evs; run_returned := false |}.

(** The guard as every handler calls it, on the window inside the state. *)
Definition check_seen (s : State) (u : Update) : bool * State :=
  let '(dup, sn) := _already_processed (seen s) u in
  (dup, {| seen := sn; _redeemed_ids := _redeemed_ids s |}).

Definition start_cmd (s : State) (u : Update) : Run :=
  let '(dup, s1) := check_seen s u in
  if dup then returned s1 []
  else
    match message u with
    | None => raised s1 []
    | Some _ => returned s1 [ReplyText (lit "Hey! " ++ [128075; 10]%N ++ HELP)]
    end.

Definition help_cmd (s : State) (u : Update) : Run :=
  let '(dup, s1) := check_seen s u in
  if dup then returned s1 []
  else
    match message u with
    | None => raised s1 []
    | Some _ => returned s1 [ReplyText HELP]
    end.

Definition info_cmd (s : State) (u : Update) : Run :=
  let '(dup, s1) := check_seen s u in
  if dup then returned s1 []
  else
    match message u with
    | None => raised s1 []
    | Some _ =>
        returned s1
          [ReplyText
             (lit "This bot generates images from *your text prompt* using a fixed project reference image. "
              ++ [127919]%N)]
    end.

Definition status_cmd (s : State) (u : Update) : Run :=
  let '(dup, s1) := check_seen s u in
  if dup then returned s1 []
  else
    let ok_ref := if nonempty (REF_BYTES cfg) then [9989]%N else [10060]%N in
    let ok_wh := [9989]%N ++ lit " (webhook mode)" in
    match message u with
    | None => raised s1 []
    | Some _ =>
        returned s1
          [ReplyText (lit "Ref image: " ++ ok_ref ++ [10]%N ++ lit "Webhook: " ++ ok_wh)]
    end.

Definition redeem_cmd (s : State) (u : Update) : Run :=
  let '(dup, s1) := check_seen s u in
  if dup then returned s1 []
  else
    match message u with
    | None => raised s1 []
    | Some m =>
        if negb (nonempty (ACCESS_CODE cfg)) then
          returned s1 [ReplyText (lit "Redeem not required.")]
        else
          match split1 (text_or_empty m) with
          | _ :: p1 :: _ =>
              let code := strip p1 in
              if bool_decide (code = ACCESS_CODE cfg) then
                returned {| seen := seen s1;
                            _redeemed_ids := {[from_user_id m]} ∪ _redeemed_ids s1 |}
                         [ReplyText MSG_ACCESS_UNLOCKED]
              else returned s1 [ReplyText ([10060]%N ++ lit " Invalid code.")]
          | _ => returned s1 [ReplyText (lit "Usage: /redeem <CODE>")]
          end
    end.

(** [_generate_and_reply] (lines 166-181): its events, and whether it returned. *)
Definition _generate_and_reply (w : World) (user_prompt : list N) : list Event * bool :=
  let '(evs, out) := generate_image_from_reference b64decode cfg w user_prompt (REF_BYTES cfg) in
  match out with
  | RaiseImageGenError msg =>
      let err_text := lower msg in
      if contains err_text (lit "moderation") || contains err_text (lit "safety")
         || contains err_text (lit "rejected")
      then (SendAction :: evs ++ [ReplyText MSG_RESTRICTED_CONTENT], true)
      else (SendAction :: evs ++ [ReplyText MSG_WENT_WRONG], true)
  | RaiseOther => (SendAction :: evs, false)
  | Return out_png =>
      (SendAction :: evs
       ++ [ReplyPhoto out_png (lit "result.png")
             ([9989]%N ++ lit " Done!" ++ [10]%N ++ lit "Prompt: " ++ user_prompt)],
       true)
  end.

Definition generate_run (s : State) (w : World) (user_prompt : list N) : Run :=
  let '(evs, ok) := _generate_and_reply w user_prompt in
  {| run_state := s; run_events := evs; run_returned := ok |}.

Definition pic_cmd (s : State) (u : Update) (w : World) : Run :=
  let '(dup, s1) := check_seen s u in
  if dup then returned s1 []
  else
    match message u with
    | None => raised s1 []
    | Some m =>
        let user_id := from_user_id m in
        if negb (_is_allowed_user cfg (_redeemed_ids s1) user_id) then
          if nonempty (ACCESS_CODE cfg) then
            returned s1
              [ReplyText ([128274]%N
                 ++ lit " Access restricted. If you have a code, DM me and send `/redeem <CODE>`.")]
          else returned s1 [ReplyText ([128274]%N ++ lit " Access restricted.")]
        else
          let user_prompt := extract_pic_prompt m in
          if negb (nonempty user_prompt) then returned s1 [ReplyText MSG_USAGE_PIC]
          else generate_run s1 w user_prompt
    end.

Definition is_group (t : ChatType) : bool :=
  match t with GROUP | SUPERGROUP => true | _ => false end.

Definition handle_text (s : State) (u : Update) (w : World) : Run :=
  let '(dup, s1) := check_seen s u in
  if dup then returned s1 []
  else
    match message u with
    | None => returned s1 []
    | Some msg =>
        if negb (nonempty (text_or_empty msg)) then returned s1 []
        else if is_group (chat_type msg) then returned s1 []
        else
          let user_id := from_user_id msg in
          if negb (_is_allowed_user cfg (_redeemed_ids s1) user_id) then
            if nonempty (ACCESS_CODE cfg) then
              returned s1
                [ReplyText ([128274]%N
                   ++ lit " Access restricted. If you have a code, send `/redeem <CODE>`.")]
            else returned s1 [ReplyText ([128274]%N ++ lit " Access restricted.")]
          else
            let user_prompt := strip (text_or_empty msg) in
            if negb (nonempty user_prompt) || startswith user_prompt (lit "/") then
              returned s1 []
            else generate_run s1 w user_prompt
    end.

(** The registered handlers (lines 230-236). *)
Inductive Handler :=
  | H_start | H_help | H_info | H_status | H_redeem | H_pic | H_text.

Definition run_handler (h : Handler) (s : State) (u : Update) (w : World) : Run :=
  match h with
  | H_start => start_cmd s u
  | H_help => help_cmd s u
  | H_info => info_cmd s u
  | H_status => status_cmd s u
  | H_redeem => redeem_cmd s u
  | H_pic => pic_cmd s u w
  | H_text => handle_text s u w
  end.

(** One delivery: the handler it is routed to, the update, and what the
    world answers while it is handled. *)
Record Delivery := {
  d_handler : Handler;
  d_update : Update;
  d_world : World
}.

Definition deliver (s : State) (d : Delivery) : Run :=
  run_handler (d_handler d) s (d_update d) (d_world d).

(** Deliveries handled one after the other: the final state and all
    events in order. *)
Fixpoint deliver_all (s : State) (ds : list Delivery) : State * list Event :=
  match ds with
  | [] => (s, [])
  | d :: ds' =>
      let r := deliver s d in
      let '(s', evs) := deliver_all (run_state r) ds' in
      (s', run_events r ++ evs)
  end.

End Handlers.

Definition is_reply (e : Event) : bool :=
  match e with
  | ReplyText _ | ReplyPhoto _ _ _ => true
  | _ => false
  end.

Definition is_provider_call (e : Event) : bool :=
  match e with
  | HttpPost _ | HttpGet _ => true
  | _ => false
  end.

Fixpoint count (p : Event → bool) (evs : list Event) : nat :=
  match evs with
  | [] => 0
  | e :: evs' => ((if p e then 1 else 0) + count p evs')%nat
  end.

(** Number of replies sent to the requester, and of HTTP calls made to
    the provider. *)
Definition replies (evs : list Event) : nat := count is_reply evs.
Definition provider_calls (evs : list Event) : nat := count is_provider_call evs.

(** ** Notions used in the statements *)

(** The handlers that answer every new message. *)
Definition always_replies (h : Handler) : bool :=
  match h with
  | H_start | H_help | H_info | H_status | H_redeem => true
  | H_pic | H_text => false
  end.

(** The delivery [d], handled in state [s], is a /redeem of requester
    [id] that the bot answers with the unlock notice. *)
Definition unlocked_by (b64decode : json → pyresult bytes) (lower : list N → list N)
    (cfg : Config) (s : State) (d : Delivery) (id : Z) : Prop :=
  d_handler d = H_redeem
  ∧ ∃ m, message (d_update d) = Some m
      ∧ from_user_id m = id
      ∧ run_events (deliver b64decode lower cfg s d) = [ReplyText MSG_ACCESS_UNLOCKED].

(** [data[k]] of a request's form fields. *)
Fixpoint form_get (d : list (list N * list N)) (k : list N) : option (list N) :=
  match d with
  | [] => None
  | (k', v) :: d' => if bool_decide (k' = k) then Some v else form_get d' k
  end.

(** The replies among the events, in order. *)
Definition reply_events (evs : list Event) : list Event := List.filter is_reply evs.

(** [s[0]] and [s[-1]] of a non-empty string are not whitespace. *)
Definition trimmed (s : list N) : Prop :=
  ∃ c, head s = Some c ∧ isspace c = false ∧ ∃ c', last s = Some c' ∧ isspace c' = false.

(** The keyword test of [_generate_and_reply] on the lowered error text. *)
Definition is_restricted (err_text : list N) : bool :=
  contains err_text (lit "moderation") || contains err_text (lit "safety")
  || contains err_text (lit "rejected").

(** ** Concrete collaborators for worked examples *)

(** [str.lower] on ASCII letters; other code points are left alone. *)
Definition ascii_lower (s : list N) : list N :=
  map (λ c, if (65 <=? c) && (c <=? 90) then c + 32 else c)%N s.

(** Value of one character of the standard base64 alphabet. *)
Definition b64_value (c : N) : option N :=
  (if (65 <=? c) && (c <=? 90) then Some (c - 65)
   else if (97 <=? c) && (c <=? 122) then Some (c - 71)
   else if (48 <=? c) && (c <=? 57) then Some (c + 4)
   else if c =? 43 then Some 62
   else if c =? 47 then Some 63
   else None)%N.

Definition byte_of (n : N) : byte := default x00 (Byte.of_N (n mod 256)%N).

(** Decoder for canonically padded base64 text (groups of four
    characters, [=] only at the end); anything else is refused. On such
    text it returns what [base64.b64decode] returns. *)
Fixpoint b64_groups (s : list N) : option bytes :=
  match s with
  | [] => Some []
  | a :: b :: c :: d :: rest =>
      va ← b64_value a; vb ← b64_value b;
      if (c =? 61)%N then
        if (d =? 61)%N && negb (nonempty rest)
        then Some [byte_of (va * 4 + vb / 16)]
        else None
      else
        vc ← b64_value c;
        if (d =? 61)%N then
          if negb (nonempty rest)
          then Some [byte_of (va * 4 + vb / 16); byte_of (vb * 16 + vc / 4)]
          else None
        else
          vd ← b64_value d; tl ← b64_groups rest;
          Some (byte_of (va * 4 + vb / 16) :: byte_of (vb * 16 + vc / 4)
                :: byte_of (vc * 64 + vd) :: tl)
  | _ => None
  end%N.

Definition b64decode_canonical (v : json) : pyresult bytes :=
  match v with
  | JStr s =>
      match b64_groups s with
      | Some b => PyOk b
      | None => PyExc (lit "Incorrect padding")
      end
  | _ => PyExc (lit "argument should be a bytes-like object or ASCII string")
  end.

(** A world in which the provider cannot be reached. *)
Definition offline : World :=
  {| http_post := λ _, None;
     http_get := λ _, PyExc (lit "connection failed");
     read_mask := λ _, None |}.

(** A world whose provider answers every POST with [r]. *)
Definition answering (r : Response) : World :=
  {| http_post := λ _, Some r;
     http_get := λ _, PyExc (lit "connection failed");
     read_mask := λ _, None |}.

(** Open access, OpenAI-style provider, no prefix. *)
Definition cfg_open : Config :=
  {| _allow_ids := ∅; ACCESS_CODE := [];
     REF_BYTES := [x89; x50; x4e; x47];
     PROVIDER := lit "openai";
     OPENAI_API_KEY := lit "sk-test";
     OPENAI_BASE_URL := lit "https://api.openai.com/v1";
     OPENAI_MODEL := lit "gpt-image-1";
     OPENAI_IMG_SIZE := lit "1024x1024";
     OPENAI_MASK_PATH := [];
     DEFAULT_PROMPT_PREFIX := [];
     STABILITY_API_KEY := lit "sk-stab";
     STABILITY_ENGINE := lit "stable-diffusion-xl-1024-v1-0";
     STABILITY_STRENGTH_str := lit "0.65";
     STABILITY_CFG := 7;
     STABILITY_STEPS := 30;
     STABILITY_SEED := None |}.

Definition with_provider (p : string) (c : Config) : Config :=
  {| _allow_ids := _allow_ids c; ACCESS_CODE := ACCESS_CODE c; REF_BYTES := REF_BYTES c;
     PROVIDER := lit p;
     OPENAI_API_KEY := OPENAI_API_KEY c; OPENAI_BASE_URL := OPENAI_BASE_URL c;
     OPENAI_MODEL := OPENAI_MODEL c; OPENAI_IMG_SIZE := OPENAI_IMG_SIZE c;
     OPENAI_MASK_PATH := OPENAI_MASK_PATH c;
     DEFAULT_PROMPT_PREFIX := DEFAULT_PROMPT_PREFIX c;
     STABILITY_API_KEY := STABILITY_API_KEY c; STABILITY_ENGINE := STABILITY_ENGINE c;
     STABILITY_STRENGTH_str := STABILITY_STRENGTH_str c;
     STABILITY_CFG := STABILITY_CFG c; STABILITY_STEPS := STABILITY_STEPS c;
     STABILITY_SEED := STABILITY_SEED c |}.

Definition with_prefix (p : string) (c : Config) : Config :=
  {| _allow_ids := _allow_ids c; ACCESS_CODE := ACCESS_CODE c; REF_BYTES := REF_BYTES c;
     PROVIDER := PROVIDER c;
     OPENAI_API_KEY := OPENAI_API_KEY c; OPENAI_BASE_URL := OPENAI_BASE_URL c;
     OPENAI_MODEL := OPENAI_MODEL c; OPENAI_IMG_SIZE := OPENAI_IMG_SIZE c;
     OPENAI_MASK_PATH := OPENAI_MASK_PATH c;
     DEFAULT_PROMPT_PREFIX := lit p;
     STABILITY_API_KEY := STABILITY_API_KEY c; STABILITY_ENGINE := STABILITY_ENGINE c;
     STABILITY_STRENGTH_str := STABILITY_STRENGTH_str c;
     STABILITY_CFG := STABILITY_CFG c; STABILITY_STEPS := STABILITY_STEPS c;
     STABILITY_SEED := STABILITY_SEED c |}.

Definition with_access (allow : gset Z) (code : string) (c : Config) : Config :=
  {| _allow_ids := allow; ACCESS_CODE := lit code; REF_BYTES := REF_BYTES c;
     PROVIDER := PROVIDER c;
     OPENAI_API_KEY := OPENAI_API_KEY c; OPENAI_BASE_URL := OPENAI_BASE_URL c;
     OPENAI_MODEL := OPENAI_MODEL c; OPENAI_IMG_SIZE := OPENAI_IMG_SIZE c;
     OPENAI_MASK_PATH := OPENAI_MASK_PATH c;
     DEFAULT_PROMPT_PREFIX := DEFAULT_PROMPT_PREFIX c;
     STABILITY_API_KEY := STABILITY_API_KEY c; STABILITY_ENGINE := STABILITY_ENGINE c;
     STABILITY_STRENGTH_str := STABILITY_STRENGTH_str c;
     STABILITY_CFG := STABILITY_CFG c; STABILITY_STEPS := STABILITY_STEPS c;
     STABILITY_SEED := STABILITY_SEED c |}.

(** A text message, and the update that carries it. *)
Definition text_message (chat : Z) (kind : ChatType) (id user : Z) (t : string) : Message :=
  {| chat_id := chat; chat_type := kind; message_id := id; from_user_id := user;
     text := Some (lit t) |}.

Definition update_of (m : Message) : Update := {| message := Some m |}.

(** [n] identities of one chat, message ids [0 .. n-1]. *)
Definition fresh_keys (n : Z) : list (Z * Z) := (λ i, (7, i)) <$> seqZ 0 n.

(** A free-text message in a group. *)
Definition group_hello : Delivery :=
  {| d_handler := H_text;
     d_update := update_of (text_message 7 GROUP 1 42 "hello");
     d_world := offline |}.

(** A /redeem message with the given text, from [user]. *)
Definition redeem_delivery (id user : Z) (t : string) : Delivery :=
  {| d_handler := H_redeem;
     d_update := update_of (text_message 7 PRIVATE id user t);
     d_world := offline |}.

(** A 200 response of the Stability kind: JSON with one artifact. *)
Definition stability_ok_json : Response :=
  {| status_code := 200;
     resp_text := lit "{...}";
     resp_content := [];
     resp_content_type := Some (lit "application/json");
     resp_json := PyOk (JObj [(lit "artifacts",
                               JArr [JObj [(lit "base64", JStr (lit "aGk="))]])]) |}.

(** A 200 response of the OpenAI kind, with the image inline. *)
Definition openai_ok_b64 : Response :=
  {| status_code := 200;
     resp_text := lit "{...}";
     resp_content := [];
     resp_content_type := Some (lit "application/json");
     resp_json := PyOk (JObj [(lit "data",
                               JArr [JObj [(lit "b64_json", JStr (lit "aGk="));
                                           (lit "url", JStr (lit "https://img/1"))]])]) |}.

(** A 400 response that reports a moderation block. *)
Definition openai_rejected : Response :=
  {| status_code := 400;
     resp_text := lit "Your request was rejected as a result of our Safety system.";
     resp_content := [];
     resp_content_type := Some (lit "application/json");
     resp_json := PyExc (lit "not read") |}.

(** A blank free-text message in a direct conversation. *)
Definition blank_text : Update := update_of (text_message 7 PRIVATE 1 42 "  ").

(** A free-text prompt in a direct conversation. *)
Definition private_prompt : Update := update_of (text_message 7 PRIVATE 1 42 " a red bicycle ").

(** A /pic command with no argument. *)
Definition bare_pic : Update := update_of (text_message 7 PRIVATE 1 42 "/pic").


(** ** Notions used in the further properties *)

(** The guard applied to a list of updates, oldest first. *)
Definition seen_updates (s : Seen) (us : list Update) : Seen :=
  foldl (λ s u, (_already_processed s u).2) s us.

(** The identities the guard reads off a list of updates. *)
Definition update_keys (us : list Update) : list (Z * Z) :=
  omap (λ u, key_of <$> message u) us.

(** Strings made of whitespace only, and strings without whitespace. *)
Definition all_space (s : list N) : Prop := forallb isspace s = true.
Definition no_space (s : list N) : Prop := forallb (λ c, negb (isspace c)) s = true.

Definition is_post (e : Event) : bool :=
  match e with HttpPost _ => true | _ => false end.

Definition is_get (e : Event) : bool :=
  match e with HttpGet _ => true | _ => false end.

(** The two access-restricted notices of [pic_cmd] and [handle_text]. *)
Definition MSG_RESTRICTED_PLAIN : list N := [128274]%N ++ lit " Access restricted.".
Definition MSG_RESTRICTED_PIC : list N :=
  [128274]%N ++ lit " Access restricted. If you have a code, DM me and send `/redeem <CODE>`.".
Definition MSG_RESTRICTED_TEXT : list N :=
  [128274]%N ++ lit " Access restricted. If you have a code, send `/redeem <CODE>`.".

(** The caption of the photo reply. *)
Definition caption_of (user_prompt : list N) : list N :=
  [9989]%N ++ lit " Done!" ++ [10]%N ++ lit "Prompt: " ++ user_prompt.


(** The credential of the adapter that [PROVIDER] selects, and the
    message raised when it is missing. *)
Definition selected_key (cfg : Config) : list N :=
  if bool_decide (PROVIDER cfg = lit "stability") then STABILITY_API_KEY cfg
  else OPENAI_API_KEY cfg.

Definition missing_key_message (cfg : Config) : list N :=
  if bool_decide (PROVIDER cfg = lit "stability") then lit "Missing STABILITY_API_KEY"
  else lit "Missing OPENAI_API_KEY".

(** The request the selected adapter posts for [prompt]. *)
Definition selected_request (cfg : Config) (w : World) (prompt : list N) : Request :=
  if bool_decide (PROVIDER cfg = lit "stability")
  then stability_request cfg (_prepend_prefix cfg prompt) (REF_BYTES cfg)
  else openai_request cfg w (_prepend_prefix cfg prompt) (REF_BYTES cfg).

(** A 200 response declared as JSON whose body does not parse. *)
Definition garbled_json : Response :=
  {| status_code := 200;
     resp_text := lit "<html>";
     resp_content := [];
     resp_content_type := Some (lit "application/json");
     resp_json := PyExc (lit "Expecting value") |}.

(** A provider that answers every request with the same PNG bytes inline. *)
Definition cfg_locked : Config := with_access {[1]} "" cfg_open.


(** [cfg_open] with both provider keys missing. *)
Definition cfg_nokey : Config :=
  {| _allow_ids := ∅; ACCESS_CODE := [];
     REF_BYTES := [x89; x50; x4e; x47];
     PROVIDER := lit "openai";
     OPENAI_API_KEY := [];
     OPENAI_BASE_URL := lit "https://api.openai.com/v1";
     OPENAI_MODEL := lit "gpt-image-1";
     OPENAI_IMG_SIZE := lit "1024x1024";
     OPENAI_MASK_PATH := [];
     DEFAULT_PROMPT_PREFIX := [];
     STABILITY_API_KEY := [];
     STABILITY_ENGINE := lit "stable-diffusion-xl-1024-v1-0";
     STABILITY_STRENGTH_str := lit "0.65";
     STABILITY_CFG := 7;
     STABILITY_STEPS := 30;
     STABILITY_SEED := None |}.

(** A /pic command with a prompt, from requester 42 in a direct chat. *)
Definition pic_cat : Update := update_of (text_message 7 PRIVATE 1 42 "/pic cat").

(** A 200 response of the Stability kind whose artifact is not base64. *)
Definition stability_bad_b64 : Response :=
  {| status_code := 200;
     resp_text := lit "{...}";
     resp_content := [];
     resp_content_type := Some (lit "application/json");
     resp_json := PyOk (JObj [(lit "artifacts",
                               JArr [JObj [(lit "base64", JStr (lit "a"))]])]) |}.


(** ** Reference image loader (ref_loader.py) *)

(** What the loader touches: a local file, or a URL. *)
Inductive RefEvent :=
  | OpenPath (path : list N)
  | GetUrl (url : list N).

(** How the loader ends: with PNG bytes, with [RefImageError(msg)], or
    with another exception (raised while converting or saving). *)
Inductive RefOutcome :=
  | RefReturn (png : bytes)
  | RaiseRefImageError (msg : list N)
  | RefRaiseOther.

Section RefLoader.

(** A decoded image and its [mode]. *)
Variable Image : Type.
Variable img_mode : Image → list N.
(** [Image.open(path)]; [client.get(url)] with [raise_for_status], giving
    [r.content]; [Image.open(io.BytesIO(content))]; [img.convert("RGBA")];
    [img.save(out, format="PNG")] giving [out.getvalue()]. *)
Variable open_path : list N → pyresult Image.
Variable get_url : list N → pyresult bytes.
Variable open_bytes : bytes → pyresult Image.
Variable convert_rgba : Image → pyresult Image.
Variable save_png : Image → pyresult bytes.

(** Lines 36-41: normalise the mode and encode as PNG. *)
Definition to_png (img : Image) : RefOutcome :=
  let converted :=
    if bool_decide (img_mode img = lit "RGB") || bool_decide (img_mode img = lit "RGBA")
    then PyOk img else convert_rgba img in
  match converted with
  | PyExc _ => RefRaiseOther
  | PyOk img' =>
      match save_png img' with
      | PyOk png => RefReturn png
      | PyExc _ => RefRaiseOther
      end
  end.

(** [load_reference_png_bytes], given the two environment values. *)
Definition load_reference_png_bytes (path_env url_env : option (list N))
  : list RefEvent * RefOutcome :=
  let path := strip (default [] path_env) in
  let url := strip (default [] url_env) in
  if negb (nonempty path) && negb (nonempty url) then
    ([], RaiseRefImageError (lit "Set REFERENCE_IMAGE_PATH or REFERENCE_IMAGE_URL"))
  else if nonempty path then
    match open_path path with
    | PyExc e =>
        ([OpenPath path], RaiseRefImageError (lit "Failed to open local ref image: " ++ e))
    | PyOk img => ([OpenPath path], to_png img)
    end
  else
    match get_url url with
    | PyExc e => ([GetUrl url], RaiseRefImageError (lit "Failed to download ref image: " ++ e))
    | PyOk content =>
        match open_bytes content with
        | PyExc e =>
            ([GetUrl url], RaiseRefImageError (lit "Failed to download ref image: " ++ e))
        | PyOk img => ([GetUrl url], to_png img)
        end
    end.

End RefLoader.

(** ** The allow-list read at import (main.py, lines 40-46) *)

(** [s.split(sep)] for a one-character separator. *)
Fixpoint split_on (sep : N) (s : list N) : list (list N) :=
  match s with
  | [] => [[]]
  | c :: s' =>
      if (c =? sep)%N then [] :: split_on sep s'
      else
        match split_on sep s' with
        | h :: t => (c :: h) :: t
        | [] => [[c]]
        end
  end.

Section AllowList.

(** The characters [str.isdigit] accepts, and [int(s)]. *)
Variable is_digit_char : N → bool.
Variable py_int : list N → pyresult Z.

Definition isdigit (s : list N) : bool := nonempty s && forallb is_digit_char s.

(** One turn of the loop; [None] once [int] has raised. *)
Definition add_allow_id (acc : option (gset Z)) (piece : list N) : option (gset Z) :=
  match acc with
  | None => None
  | Some ids =>
      let s := strip piece in
      if isdigit s then
        match py_int s with
        | PyOk n => Some ({[n]} ∪ ids)
        | PyExc _ => None
        end
      else Some ids
  end.

(** [_allow_ids] as import leaves it, from [os.getenv("ALLOW_USER_IDS")]. *)
Definition load_allow_ids (env : option (list N)) : option (gset Z) :=
  let _allow_env := strip (default [] env) in
  if nonempty _allow_env then foldl add_allow_id (Some ∅) (split_on 44 _allow_env)
  else Some ∅.

End AllowList.

(** Decimal digits of ASCII, and the number they write. *)
Definition ascii_digit (c : N) : bool := ((48 <=? c) && (c <=? 57))%N.
Definition ascii_int (s : list N) : pyresult Z :=
  PyOk (foldl (λ acc c, acc * 10 + (Z.of_N c - 48)) 0 s).

(** An image reduced to its mode, for examples: opening a path gives a
    palette image, converting gives RGBA, saving gives the mode's text. *)
Definition toy_open (path : list N) : pyresult (list N) :=
  if bool_decide (path = lit "ref.gif") then PyOk (lit "P") else PyExc (lit "No such file").
Definition toy_convert (img : list N) : pyresult (list N) := PyOk (lit "RGBA").
Definition toy_save (img : list N) : pyresult (list byte) :=
  PyOk (byte_of <$> img).
Definition toy_get (url : list N) : pyresult (list byte) := PyExc (lit "connection failed").
Definition toy_open_bytes (content : list byte) : pyresult (list N) := PyOk (lit "RGB").


(** The form field in which the selected adapter sends the prompt. *)
Definition prompt_field (cfg : Config) : list N :=
  if bool_decide (PROVIDER cfg = lit "stability") then lit "text_prompts[0][text]"
  else lit "prompt".

(** A 200 response of the OpenAI kind whose inline image is not base64. *)
Definition openai_bad_b64 : Response :=
  {| status_code := 200;
     resp_text := lit "{...}";
     resp_content := [];
     resp_content_type := Some (lit "application/json");
     resp_json := PyOk (JObj [(lit "data",
                               JArr [JObj [(lit "b64_json", JStr (lit "a"))]])]) |}.


(** A 200 response of the OpenAI kind that holds only a temporary URL. *)
Definition openai_ok_url : Response :=
  {| status_code := 200;
     resp_text := lit "{...}";
     resp_content := [];
     resp_content_type := Some (lit "application/json");
     resp_json := PyOk (JObj [(lit "data",
                               JArr [JObj [(lit "url", JStr (lit "https://img/1"))]])]) |}.

(** * Properties of the de-duplication guard *)

Lemma MAX_SEEN_pos : 1 <= _MAX_SEEN.
Proof. unfold _MAX_SEEN. lia. Qed.

Lemma seen_key_dup s k : k ∈ _SEEN_MSGS s → seen_key s k = (true, s).
Proof. intros Hk. unfold seen_key. by rewrite bool_decide_eq_true_2. Qed.

(** An unseen identity, window not yet full: it is appended. *)
Lemma seen_key_below s k :
  k ∉ _SEEN_MSGS s →
  Z.of_nat (length (_SEEN_ORDER s)) < _MAX_SEEN →
  seen_key s k =
    (false, {| _SEEN_MSGS := {[k]} ∪ _SEEN_MSGS s; _SEEN_ORDER := _SEEN_ORDER s ++ [k] |}).
Proof.
  intros Hk Hlen. unfold seen_key. rewrite bool_decide_eq_false_2 by done.
  cbv zeta. rewrite length_app. cbn [length].
  destruct (Z.gtb_spec (Z.of_nat (length (_SEEN_ORDER s) + 1)) _MAX_SEEN); [lia | done].
Qed.

(** An unseen identity, window full: it is appended and the head leaves. *)
Lemma seen_key_full s k old t :
  k ∉ _SEEN_MSGS s →
  _SEEN_ORDER s = old :: t →
  _MAX_SEEN <= Z.of_nat (length (_SEEN_ORDER s)) →
  seen_key s k =
    (false, {| _SEEN_MSGS := ({[k]} ∪ _SEEN_MSGS s) ∖ {[old]}; _SEEN_ORDER := t ++ [k] |}).
Proof.
  intros Hk Ho Hlen. unfold seen_key. rewrite bool_decide_eq_false_2 by done.
  cbv zeta. rewrite length_app. cbn [length].
  destruct (Z.gtb_spec (Z.of_nat (length (_SEEN_ORDER s) + 1)) _MAX_SEEN); [| lia].
  by rewrite Ho.
Qed.

Lemma seen_key_new s k : k ∉ _SEEN_MSGS s → (seen_key s k).1 = false.
Proof.
  intros Hk. unfold seen_key. rewrite bool_decide_eq_false_2 by done.
  cbv zeta. destruct (_ >? _); [destruct (_ ++ _) |]; done.
Qed.

Lemma seen_inv_init : seen_inv seen_init.
Proof.
  split; cbn.
  - constructor.
  - intros k. set_solver.
  - pose proof MAX_SEEN_pos. lia.
Qed.

Lemma seen_key_inv s k : seen_inv s → seen_inv (seen_key s k).2.
Proof.
  intros [Hnd Hsame Hb].
  destruct (decide (k ∈ _SEEN_MSGS s)) as [Hin | Hout].
  { rewrite seen_key_dup by done. by split. }
  assert (k ∉ _SEEN_ORDER s) as Hko by (by rewrite <- Hsame).
  destruct (decide (Z.of_nat (length (_SEEN_ORDER s)) < _MAX_SEEN)) as [Hlt | Hge].
  - rewrite seen_key_below by done. split; cbn.
    + apply NoDup_app. repeat split; [done | | apply NoDup_singleton].
      intros x Hx ->%list_elem_of_singleton. done.
    + intros x. rewrite elem_of_union, elem_of_singleton, elem_of_app,
        list_elem_of_singleton, Hsame. tauto.
    + rewrite length_app. cbn. lia.
  - destruct (_SEEN_ORDER s) as [| old t] eqn:Ho.
    { cbn in Hge. pose proof MAX_SEEN_pos. lia. }
    erewrite seen_key_full by (try done; rewrite Ho; lia).
    apply NoDup_cons in Hnd as [Hold Hnd].
    assert (old ≠ k) as Hne.
    { intros ->. apply Hko. left. }
    split; cbn.
    + apply NoDup_app. repeat split; [done | | apply NoDup_singleton].
      intros x Hx ->%list_elem_of_singleton. apply Hko. by right.
    + intros x. rewrite elem_of_difference, elem_of_union, !elem_of_singleton,
        elem_of_app, list_elem_of_singleton, Hsame, elem_of_cons.
      split.
      * intros [[-> | [-> | Hx]] Hnx]; tauto.
      * intros [Hx | ->]; split; try tauto; try done.
        intros ->. done.
    + rewrite length_app. cbn in *. lia.
Qed.

Lemma already_processed_inv s u : seen_inv s → seen_inv (_already_processed s u).2.
Proof.
  intros Hs. unfold _already_processed.
  destruct (message u); [by apply seen_key_inv | done].
Qed.

Lemma seen_reachable_inv s : seen_reachable s → seen_inv s.
Proof.
  induction 1 as [| s u _ IH]; [apply seen_inv_init | by apply already_processed_inv].
Qed.

(** An unseen identity is in both structures after the call. *)
Lemma seen_key_records s k :
  seen_inv s → k ∉ _SEEN_MSGS s →
  k ∈ _SEEN_MSGS (seen_key s k).2 ∧ k ∈ _SEEN_ORDER (seen_key s k).2.
Proof.
  intros Hs Hk.
  assert (k ∈ _SEEN_ORDER (seen_key s k).2) as Ho.
  { destruct (decide (Z.of_nat (length (_SEEN_ORDER s)) < _MAX_SEEN)) as [Hlt | Hge].
    - rewrite seen_key_below by done. cbn. set_solver.
    - destruct (_SEEN_ORDER s) as [| old t] eqn:Ho.
      { cbn in Hge. pose proof MAX_SEEN_pos. lia. }
      erewrite seen_key_full by (try done; rewrite Ho; lia). cbn. set_solver. }
  split; [| done].
  by apply (inv_same _ (seen_key_inv s k Hs)).
Qed.

Lemma seen_key_members s k x :
  x ∈ _SEEN_MSGS (seen_key s k).2 → x = k ∨ x ∈ _SEEN_MSGS s.
Proof.
  unfold seen_key. destruct (bool_decide _); [by right |]. cbv zeta.
  destruct (_ >? _); [destruct (_ ++ _) |]; cbn;
    rewrite ?elem_of_difference, elem_of_union, elem_of_singleton; tauto.
Qed.

Lemma seen_inv_size s : seen_inv s → size (_SEEN_MSGS s) = length (_SEEN_ORDER s).
Proof.
  intros [Hnd Hsame _].
  assert (_SEEN_MSGS s = list_to_set (_SEEN_ORDER s)) as ->.
  { apply set_eq. intros k. by rewrite elem_of_list_to_set. }
  by apply size_list_to_set.
Qed.

Lemma seen_all_snoc s ks k : seen_all s (ks ++ [k]) = (seen_key (seen_all s ks) k).2.
Proof. unfold seen_all. by rewrite foldl_snoc. Qed.

(** The window holds only identities that were checked. *)
Lemma seen_all_members ks k : k ∈ _SEEN_MSGS (seen_all seen_init ks) → k ∈ ks.
Proof.
  induction ks as [| k0 ks IH] using rev_ind; [cbn; set_solver |].
  rewrite seen_all_snoc, elem_of_app, list_elem_of_singleton.
  intros [-> | Hin]%seen_key_members; [by right | left; by apply IH].
Qed.

Lemma seen_all_inv s ks : seen_inv s → seen_inv (seen_all s ks).
Proof.
  intros Hs. induction ks as [| k ks IH] using rev_ind; [done |].
  rewrite seen_all_snoc. by apply seen_key_inv.
Qed.

Lemma seen_all_reachable ks : seen_reachable (seen_all seen_init ks).
Proof.
  induction ks as [| [c i] ks IH] using rev_ind; [constructor |].
  rewrite seen_all_snoc.
  pose (m := {| chat_id := c; chat_type := PRIVATE; message_id := i;
                from_user_id := 0; text := None |}).
  change (seen_key (seen_all seen_init ks) (c, i))
    with (_already_processed (seen_all seen_init ks) {| message := Some m |}).
  by constructor.
Qed.

(** Distinct identities fed to the empty window: it holds the last
    [_MAX_SEEN] of them, in arrival order. *)
Lemma seen_all_order ks :
  NoDup ks →
  _SEEN_ORDER (seen_all seen_init ks) = drop (length ks - Z.to_nat _MAX_SEEN) ks.
Proof.
  pose proof MAX_SEEN_pos as HM.
  induction ks as [| k ks IH] using rev_ind; intros Hnd; [done |].
  apply NoDup_app in Hnd as (Hnd & Hk & _).
  specialize (IH Hnd). rewrite seen_all_snoc.
  pose proof (seen_all_inv seen_init ks seen_inv_init) as Hinv.
  set (s := seen_all seen_init ks) in *.
  assert (k ∉ _SEEN_ORDER s) as Hko.
  { rewrite IH. intros Hin%(subseteq_drop _ ks). apply (Hk k); [done | set_solver]. }
  assert (k ∉ _SEEN_MSGS s) as Hks by (by rewrite (inv_same _ Hinv)).
  assert (length (_SEEN_ORDER s) = (length ks - (length ks - Z.to_nat _MAX_SEEN))%nat) as Hlen
    by (by rewrite IH, length_drop).
  rewrite length_app. cbn [length].
  destruct (decide (Z.of_nat (length (_SEEN_ORDER s)) < _MAX_SEEN)) as [Hlt | Hge].
  - rewrite seen_key_below by done. cbn.
    replace (length ks + 1 - Z.to_nat _MAX_SEEN)%nat with 0%nat by lia.
    rewrite IH. replace (length ks - Z.to_nat _MAX_SEEN)%nat with 0%nat by lia.
    done.
  - destruct (_SEEN_ORDER s) as [| old t] eqn:Ho.
    { cbn in Hge. lia. }
    erewrite seen_key_full by (try done; rewrite Ho; lia). cbn.
    assert (t = drop 1 (old :: t)) as -> by done.
    rewrite IH, drop_drop.
    rewrite drop_app_le by (cbn in *; lia).
    f_equal. f_equal. cbn in *. lia.
Qed.

Lemma fresh_keys_NoDup n : NoDup (fresh_keys n).
Proof.
  unfold fresh_keys. apply NoDup_fmap_2; [| apply NoDup_seqZ].
  intros i j Hij. by injection Hij.
Qed.

Lemma fresh_keys_length n : 0 <= n → Z.of_nat (length (fresh_keys n)) = n.
Proof. intros Hn. unfold fresh_keys. rewrite length_fmap, length_seqZ. lia. Qed.

(** C2: the set and the deque of the window always hold the same
    identities and never more than [_MAX_SEEN] of them once a check has
    completed; an insertion into a full window removes exactly the head of
    the deque from both; after [_MAX_SEEN + 1] distinct identities the
    first one is no longer reported as seen and exactly [_MAX_SEEN] are
    tracked. *)
Theorem C2_window_bounded_fifo :
  (∀ s, seen_reachable s →
     (∀ k, k ∈ _SEEN_MSGS s ↔ k ∈ _SEEN_ORDER s)
     ∧ Z.of_nat (length (_SEEN_ORDER s)) <= _MAX_SEEN
     ∧ Z.of_nat (size (_SEEN_MSGS s)) <= _MAX_SEEN)
  ∧ (∀ s k, seen_reachable s → k ∉ _SEEN_MSGS s →
       Z.of_nat (length (_SEEN_ORDER s)) = _MAX_SEEN →
       ∃ old t, _SEEN_ORDER s = old :: t
         ∧ ((seen_key s k).2 =
             {| _SEEN_MSGS := ({[k]} ∪ _SEEN_MSGS s) ∖ {[old]}; _SEEN_ORDER := t ++ [k] |})
         ∧ (old ∉ _SEEN_MSGS ((seen_key s k).2))
         ∧ (old ∉ _SEEN_ORDER ((seen_key s k).2))
         ∧ (∀ x, x ≠ old → x ∈ _SEEN_ORDER s → x ∈ _SEEN_ORDER ((seen_key s k).2)))
  ∧ (∀ k0 rest, NoDup (k0 :: rest) →
       Z.of_nat (length (k0 :: rest)) = _MAX_SEEN + 1 →
       let s := seen_all seen_init (k0 :: rest) in
       (seen_key s k0).1 = false
       ∧ (k0 ∉ _SEEN_MSGS s) ∧ (k0 ∉ _SEEN_ORDER s)
       ∧ _SEEN_ORDER s = rest
       ∧ Z.of_nat (length (_SEEN_ORDER s)) = _MAX_SEEN
       ∧ Z.of_nat (size (_SEEN_MSGS s)) = _MAX_SEEN).
Proof.
  pose proof MAX_SEEN_pos as HM.
  split; [| split].
  - intros s Hr. pose proof (seen_reachable_inv s Hr) as Hinv.
    rewrite (seen_inv_size s Hinv).
    destruct Hinv as [_ Hsame Hb]. done.
  - intros s k Hr Hk Hlen. pose proof (seen_reachable_inv s Hr) as Hinv.
    destruct (_SEEN_ORDER s) as [| old t] eqn:Ho.
    { cbn in Hlen. lia. }
    exists old, t. split; [done |].
    rewrite (seen_key_full s k old t) by (try done; rewrite Ho; lia).
    split; [done |].
    destruct Hinv as [Hnd _ _]. rewrite Ho in Hnd.
    apply NoDup_cons in Hnd as [Hold _].
    assert (old ∉ t ++ [k]) as Hgone.
    { rewrite elem_of_app, list_elem_of_singleton. intros [Hin | ->]; [done |].
      apply Hk. apply (inv_same _ (seen_reachable_inv s Hr)). rewrite Ho. left. }
    cbn. split_and!; [| done |].
    + rewrite elem_of_difference, elem_of_singleton. tauto.
    + intros x Hx [-> | Hin]%elem_of_cons; [done |].
      apply elem_of_app. by left.
  - intros k0 rest Hnd Hlen s.
    pose proof (seen_all_inv seen_init (k0 :: rest) seen_inv_init) as Hinv.
    fold s in Hinv.
    assert (_SEEN_ORDER s = rest) as Ho.
    { unfold s. rewrite seen_all_order by done.
      replace (length (k0 :: rest) - Z.to_nat _MAX_SEEN)%nat with 1%nat by lia. done. }
    apply NoDup_cons in Hnd as [Hk0 _].
    assert (k0 ∉ _SEEN_MSGS s) as Hks by (by rewrite (inv_same _ Hinv), Ho).
    rewrite (seen_inv_size s Hinv), Ho.
    split_and!; [by apply seen_key_new | done | done | done | cbn in Hlen; lia ..].
Qed.

Lemma fresh_keys_cons n :
  0 < n → fresh_keys n = (7, 0) :: ((λ i, (7, i)) <$> seqZ 1 (Z.pred n)).
Proof. intros Hn. unfold fresh_keys. by rewrite seqZ_cons. Qed.

(** The bound of C2 on a concrete run: 5001 deliveries of one chat. *)
Lemma C2_window_bounded_fifo_witness :
  NoDup (fresh_keys 5001)
  ∧ Z.of_nat (length (fresh_keys 5001)) = _MAX_SEEN + 1
  ∧ (seen_key (seen_all seen_init (fresh_keys 5001)) (7, 0)).1 = false
  ∧ Z.of_nat (size (_SEEN_MSGS (seen_all seen_init (fresh_keys 5001)))) = _MAX_SEEN.
Proof.
  pose proof (fresh_keys_NoDup 5001) as Hnd.
  pose proof (fresh_keys_length 5001 ltac:(lia)) as Hlen.
  rewrite (fresh_keys_cons 5001 ltac:(lia)) in Hnd, Hlen |- *.
  destruct C2_window_bounded_fifo as (_ & _ & Hfull).
  pose proof (Hfull _ _ Hnd Hlen) as Hres. cbv zeta in Hres.
  destruct Hres as (Hfirst & _ & _ & _ & _ & Hsize).
  exact (conj Hnd (conj Hlen (conj Hfirst Hsize))).
Defined.

(** * Properties of the handlers *)

Lemma already_processed_dup_state s u :
  (_already_processed s u).1 = true → (_already_processed s u).2 = s.
Proof.
  unfold _already_processed. destruct (message u) as [m |]; [| done].
  destruct (decide (key_of m ∈ _SEEN_MSGS s)) as [Hin | Hout].
  - by rewrite seen_key_dup.
  - by rewrite seen_key_new.
Qed.

Lemma already_processed_seen s u m :
  message u = Some m → key_of m ∈ _SEEN_MSGS s → _already_processed s u = (true, s).
Proof. intros Hu Hk. unfold _already_processed. rewrite Hu. by apply seen_key_dup. Qed.

Lemma check_seen_eq s u :
  check_seen s u =
    ((_already_processed (seen s) u).1,
     {| seen := (_already_processed (seen s) u).2; _redeemed_ids := _redeemed_ids s |}).
Proof. unfold check_seen. by destruct (_already_processed (seen s) u). Qed.

Lemma count_app p evs1 evs2 : count p (evs1 ++ evs2) = (count p evs1 + count p evs2)%nat.
Proof. induction evs1 as [| e evs1 IH]; cbn; [done | rewrite IH; lia]. Qed.

Section HandlerFacts.

Context (b64decode : json → pyresult bytes) (lower : list N → list N) (cfg : Config).

Local Abbreviation run := (run_handler b64decode lower cfg).

(** The provider layer sends no reply: its events are HTTP calls. *)
Lemma generate_events w prompt ref :
  count is_reply (generate_image_from_reference b64decode cfg w prompt ref).1 = 0%nat.
Proof.
  unfold generate_image_from_reference, _stability_img2img, _openai_img_edit.
  repeat case_match; cbn; try done.
  match goal with H : openai_response _ _ _ = _ |- _ => revert H end.
  unfold openai_response. repeat case_match; intros [= <- <-]; done.
Qed.

Lemma generate_run_replies s w prompt :
  (replies (run_events (generate_run b64decode lower cfg s w prompt)) ≤ 1)%nat
  ∧ (run_returned (generate_run b64decode lower cfg s w prompt) = true →
     replies (run_events (generate_run b64decode lower cfg s w prompt)) = 1%nat)
  ∧ run_state (generate_run b64decode lower cfg s w prompt) = s.
Proof.
  unfold generate_run, _generate_and_reply.
  pose proof (generate_events w prompt (REF_BYTES cfg)) as Hg.
  destruct (generate_image_from_reference _ _ _ _ _) as [evs out]. cbn in Hg.
  unfold replies.
  destruct out as [img | msg |]; [| destruct (_ || _) |]; cbn;
    rewrite ?count_app, ?Hg; cbn; split_and!; (done || lia).
Qed.

(** What a handler leaves in the window is what the guard left. *)
Lemma run_seen h s u w :
  seen (run_state (run h s u w)) = (_already_processed (seen s) u).2.
Proof.
  destruct h; cbn;
    unfold start_cmd, help_cmd, info_cmd, status_cmd, redeem_cmd, pic_cmd, handle_text;
    rewrite check_seen_eq; cbn;
    repeat case_match; cbn; try done;
    by rewrite (proj2 (proj2 (generate_run_replies _ _ _))).
Qed.

(** A delivery the guard reports as seen: nothing happens. *)
Lemma run_duplicate h s u w :
  (_already_processed (seen s) u).1 = true →
  run h s u w = returned s [].
Proof.
  intros Hdup. pose proof (already_processed_dup_state _ _ Hdup) as Hst.
  destruct h; cbn;
    unfold start_cmd, help_cmd, info_cmd, status_cmd, redeem_cmd, pic_cmd, handle_text;
    rewrite check_seen_eq, Hdup, Hst; cbn; by destruct s.
Qed.

(** No handler replies more than once. *)
Lemma run_replies_le h s u w : (replies (run_events (run h s u w)) ≤ 1)%nat.
Proof.
  destruct h; cbn;
    unfold start_cmd, help_cmd, info_cmd, status_cmd, redeem_cmd, pic_cmd, handle_text;
    rewrite check_seen_eq; cbn;
    repeat case_match; cbn; try lia;
    apply generate_run_replies.
Qed.

End HandlerFacts.

Section Duplicates.

Context (b64decode : json → pyresult bytes) (lower : list N → list N) (cfg : Config).

Local Abbreviation run := (run_handler b64decode lower cfg).

Lemma run_replies_new h s u m w :
  message u = Some m →
  (_already_processed (seen s) u).1 = false →
  (always_replies h = true → replies (run_events (run h s u w)) = 1%nat)
  ∧ (h = H_pic → run_returned (run h s u w) = true →
     replies (run_events (run h s u w)) = 1%nat).
Proof.
  intros Hu Hnew.
  destruct h; cbn;
    unfold start_cmd, help_cmd, info_cmd, status_cmd, redeem_cmd, pic_cmd;
    rewrite ?check_seen_eq, ?Hnew, ?Hu; cbn; split; try done;
    repeat case_match; cbn; try done.
  intros _. apply generate_run_replies.
Qed.

(** C1 (as amended): the first check of an identity, one never checked
    before or no longer in the window, answers false and records it in
    the set and in the deque; every
    later check of that identity, while the set still holds it, answers
    true; so a second delivery of the same identity does nothing: no
    reply, no provider call, no change of state. Two such deliveries send
    what the first one alone sends: never more than one reply, and
    exactly one for /start, /help, /info, /status and /redeem, and for
    /pic when the handler returns. *)
Theorem C1_duplicate_delivery_is_dropped :
  ∀ (s : State) (m m' : Message) (h h' : Handler) (w w' : World),
    seen_inv (seen s) →
    key_of m ∉ _SEEN_MSGS (seen s) →
    key_of m' = key_of m →
    let r1 := run h s (update_of m) w in
    let r2 := run h' (run_state r1) (update_of m') w' in
    (∀ ks, key_of m ∉ ks → (seen_key (seen_all seen_init ks) (key_of m)).1 = false)
    ∧ (_already_processed (seen s) (update_of m)).1 = false
    ∧ key_of m ∈ _SEEN_MSGS (seen (run_state r1))
    ∧ key_of m ∈ _SEEN_ORDER (seen (run_state r1))
    ∧ (∀ sn, key_of m ∈ _SEEN_MSGS sn → _already_processed sn (update_of m') = (true, sn))
    ∧ run_events r2 = []
    ∧ run_state r2 = run_state r1
    ∧ replies (run_events r1 ++ run_events r2) = replies (run_events r1)
    ∧ provider_calls (run_events r1 ++ run_events r2) = provider_calls (run_events r1)
    ∧ (replies (run_events r1 ++ run_events r2) ≤ 1)%nat
    ∧ (always_replies h = true → replies (run_events r1 ++ run_events r2) = 1%nat)
    ∧ (h = H_pic → run_returned r1 = true →
       replies (run_events r1 ++ run_events r2) = 1%nat).
Proof.
  intros s m m' h h' w w' Hinv Hnew Hkey r1 r2.
  assert ((_already_processed (seen s) (update_of m)).1 = false) as Hfirst
    by (by apply seen_key_new).
  pose proof (seen_key_records _ _ Hinv Hnew) as [Hset Hord].
  assert (seen (run_state r1) = (seen_key (seen s) (key_of m)).2) as Hseen
    by apply run_seen.
  assert (∀ sn, key_of m ∈ _SEEN_MSGS sn →
            _already_processed sn (update_of m') = (true, sn)) as Hlater.
  { intros sn Hin. apply (already_processed_seen _ _ m'); [done | by rewrite Hkey]. }
  assert (r2 = returned (run_state r1) []) as Hr2.
  { apply run_duplicate. rewrite Hlater; [done | by rewrite Hseen]. }
  rewrite Hseen, Hr2. cbn [run_events run_state returned]. rewrite app_nil_r.
  pose proof (run_replies_new h s (update_of m) m w eq_refl Hfirst) as [Hcmd Hpic].
  split_and!; try done.
  - intros ks Hks. apply seen_key_new. intros Hin. by apply Hks, seen_all_members.
  - apply run_replies_le.
Qed.

End Duplicates.

(** C1, as stated, fails: two deliveries of the same free-text message in
    a group produce no reply at all, not one. *)
Lemma C1_group_text_twice_no_reply :
  replies (deliver_all b64decode_canonical ascii_lower cfg_open state_init
             [group_hello; group_hello]).2 = 0%nat.
Proof. vm_compute. reflexivity. Qed.

(** C1 on a concrete pair: /start delivered twice is answered once. *)
Lemma C1_duplicate_delivery_is_dropped_witness :
  let m := text_message 7 PRIVATE 1 42 "/start" in
  let r1 := run_handler b64decode_canonical ascii_lower cfg_open H_start state_init
              (update_of m) offline in
  let r2 := run_handler b64decode_canonical ascii_lower cfg_open H_start (run_state r1)
              (update_of m) offline in
  seen_inv (seen state_init)
  ∧ (key_of m ∉ _SEEN_MSGS (seen state_init))
  ∧ run_events r2 = []
  ∧ replies (run_events r1 ++ run_events r2) = 1%nat.
Proof.
  intros m r1 r2.
  assert (seen_inv (seen state_init)) as Hinv by apply seen_inv_init.
  assert (key_of m ∉ _SEEN_MSGS (seen state_init)) as Hnew by (cbn; set_solver).
  pose proof (C1_duplicate_delivery_is_dropped b64decode_canonical ascii_lower cfg_open
                state_init m m H_start H_start offline offline Hinv Hnew eq_refl) as Hc.
  cbv zeta in Hc. destruct Hc as (_ & _ & _ & _ & _ & Hev & _ & _ & _ & _ & Hone & _).
  exact (conj Hinv (conj Hnew (conj Hev (Hone eq_refl)))).
Defined.

(** * Properties of the access guard *)

Lemma nonempty_true {A} (l : list A) : nonempty l = true ↔ l ≠ [].
Proof. by destruct l. Qed.

Lemma nonempty_false {A} (l : list A) : nonempty l = false ↔ l = [].
Proof. by destruct l. Qed.

Lemma is_allowed_spec cfg red id :
  _is_allowed_user cfg red id = true ↔
    if bool_decide (_allow_ids cfg ≠ ∅) then
      id ∈ _allow_ids cfg ∨ (ACCESS_CODE cfg ≠ [] ∧ id ∈ red)
    else if nonempty (ACCESS_CODE cfg) then id ∈ red
    else True.
Proof.
  unfold _is_allowed_user.
  destruct (bool_decide (_allow_ids cfg ≠ ∅)).
  - destruct (decide (id ∈ _allow_ids cfg)) as [Hin | Hout].
    { rewrite bool_decide_eq_true_2 by done. tauto. }
    rewrite (bool_decide_eq_false_2 _ Hout).
    destruct (ACCESS_CODE cfg) as [| c code]; cbn.
    { split; [done | intros [? | [? _]]; done]. }
    destruct (decide (id ∈ red)) as [Hr | Hr].
    + rewrite bool_decide_eq_true_2 by done. split; [| done]. intros _. by right.
    + rewrite (bool_decide_eq_false_2 _ Hr). split; [done |]. intros [? | [_ ?]]; done.
  - destruct (nonempty (ACCESS_CODE cfg)); [| done]. apply bool_decide_eq_true.
Qed.

Lemma is_allowed_mono cfg red red' id :
  red ⊆ red' → _is_allowed_user cfg red id = true → _is_allowed_user cfg red' id = true.
Proof.
  intros Hsub. rewrite !is_allowed_spec.
  destruct (bool_decide _); [| destruct (nonempty _)]; [| apply Hsub | done].
  intros [? | [? ?]]; [by left | right]. split; [done | by apply Hsub].
Qed.

Section Redeem.

Context (b64decode : json → pyresult bytes) (lower : list N → list N) (cfg : Config).

Local Abbreviation run := (run_handler b64decode lower cfg).
Local Abbreviation run_all := (deliver_all b64decode lower cfg).
Local Abbreviation unlocked := (unlocked_by b64decode lower cfg).

(** One delivery adds at most its sender to the redeemed ids, and does so
    exactly when it is a /redeem answered with the unlock notice. *)
Lemma deliver_redeemed s d id :
  id ∈ _redeemed_ids (run_state (deliver b64decode lower cfg s d)) ↔
    id ∈ _redeemed_ids s ∨ unlocked s d id.
Proof.
  unfold unlocked_by, deliver. destruct d as [h u w]. cbn.
  destruct h; cbn;
    unfold start_cmd, help_cmd, info_cmd, status_cmd, redeem_cmd, pic_cmd, handle_text;
    rewrite check_seen_eq; cbn;
    repeat case_match; cbn;
    rewrite ?(proj2 (proj2 (generate_run_replies _ _ _ _ _ _))); cbn;
    try (split; [by left | by intros [? | [? _]]]).
  all: try (split; [by left | intros [? | (_ & m' & _ & _ & ?)]; done]).
  rewrite elem_of_union, elem_of_singleton. split.
  - intros [-> | ?]; [right | by left]. split; [done |]. by eexists.
  - intros [? | (_ & m' & Hm & <- & _)]; [by right |]. left. congruence.
Qed.

(** A /redeem is answered with the unlock notice only when it is new,
    a code is configured, and the trimmed argument is that code. *)
Lemma unlocked_exact_code s d id :
  unlocked s d id →
  (_already_processed (seen s) (d_update d)).1 = false
  ∧ ACCESS_CODE cfg ≠ []
  ∧ ∃ m p0 p1 rest, message (d_update d) = Some m
      ∧ split1 (text_or_empty m) = p0 :: p1 :: rest
      ∧ strip p1 = ACCESS_CODE cfg.
Proof.
  unfold unlocked_by, deliver. destruct d as [h u w]. cbn.
  intros (-> & m & Hm & _ & Hev). revert Hev. cbn.
  unfold redeem_cmd. rewrite check_seen_eq, Hm. cbn.
  repeat case_match; cbn; try done. intros _.
  split_and!; [done | by apply nonempty_true, negb_false_iff |].
  eexists m, _, _, _. split_and!; [done | done |].
  by eapply bool_decide_eq_true_1.
Qed.

Lemma deliver_all_cons s d ds :
  (run_all s (d :: ds)).1 = (run_all (run_state (deliver b64decode lower cfg s d)) ds).1.
Proof. cbn. by destruct (deliver_all _ _ _ _ ds). Qed.

(** After any deliveries, the redeemed ids are those of the start plus
    the senders of the unlocking /redeem deliveries. *)
Lemma deliver_all_redeemed ds : ∀ s id,
  id ∈ _redeemed_ids (run_all s ds).1 ↔
    id ∈ _redeemed_ids s
    ∨ ∃ ds1 d ds2, ds = ds1 ++ d :: ds2 ∧ unlocked (run_all s ds1).1 d id.
Proof.
  induction ds as [| d ds IH]; intros s id.
  - cbn. split; [by left |]. intros [? | (ds1 & d & ds2 & Heq & _)]; [done |].
    by destruct ds1.
  - rewrite deliver_all_cons, IH, deliver_redeemed. split.
    + intros [[? | Hd] | (ds1 & d' & ds2 & -> & Hu)]; [by left | |].
      * right. by exists [], d, ds.
      * right. exists (d :: ds1), d', ds2. split; [done |]. by rewrite deliver_all_cons.
    + intros [? | (ds1 & d' & ds2 & Heq & Hu)]; [by left; left |].
      destruct ds1 as [| d0 ds1]; cbn in Heq; injection Heq as <- ->.
      * left. by right.
      * right. exists ds1, d', ds2. split; [done |]. by rewrite <- deliver_all_cons.
Qed.

Lemma deliver_all_redeemed_mono ds s :
  _redeemed_ids s ⊆ _redeemed_ids (run_all s ds).1.
Proof. intros id Hid. apply deliver_all_redeemed. by left. Qed.

End Redeem.

(** C3: the access guard follows the ordered decision table. With a
    non-empty allow-list a requester is allowed iff listed, or a code is
    configured and the requester has redeemed it. With an empty allow-list
    and a code, a requester is allowed iff redeemed: nobody at start, and
    after any deliveries exactly those requesters whose own /redeem, with
    the configured code as its trimmed argument, was answered with the
    unlock notice. With neither, everybody is allowed. *)
Theorem C3_access_decision_table :
  ∀ (b64decode : json → pyresult bytes) (lower : list N → list N) (cfg : Config),
    (_allow_ids cfg ≠ ∅ →
       ∀ red id, _is_allowed_user cfg red id = true ↔
                 id ∈ _allow_ids cfg ∨ (ACCESS_CODE cfg ≠ [] ∧ id ∈ red))
    ∧ (_allow_ids cfg = ∅ → ACCESS_CODE cfg ≠ [] →
         (∀ red id, _is_allowed_user cfg red id = true ↔ id ∈ red)
         ∧ (∀ id, _is_allowed_user cfg (_redeemed_ids state_init) id = false)
         ∧ (∀ ds id,
              _is_allowed_user cfg
                (_redeemed_ids (deliver_all b64decode lower cfg state_init ds).1) id = true ↔
              ∃ ds1 d ds2, ds = ds1 ++ d :: ds2
                ∧ unlocked_by b64decode lower cfg
                    (deliver_all b64decode lower cfg state_init ds1).1 d id)
         ∧ (∀ s d id, unlocked_by b64decode lower cfg s d id →
              ∃ m p0 p1 rest, message (d_update d) = Some m
                ∧ from_user_id m = id
                ∧ split1 (text_or_empty m) = p0 :: p1 :: rest
                ∧ strip p1 = ACCESS_CODE cfg))
    ∧ (_allow_ids cfg = ∅ → ACCESS_CODE cfg = [] →
         ∀ red id, _is_allowed_user cfg red id = true).
Proof.
  intros b64decode lower cfg. split_and!.
  - intros Hal red id. rewrite is_allowed_spec. by rewrite bool_decide_eq_true_2.
  - intros Hal Hcode.
    assert (∀ red id, _is_allowed_user cfg red id = true ↔ id ∈ red) as Hiff.
    { intros red id. rewrite is_allowed_spec.
      rewrite bool_decide_eq_false_2 by (by intros ?).
      by rewrite (proj2 (nonempty_true _) Hcode). }
    split_and!; [done | | |].
    + intros id. apply not_true_is_false. rewrite Hiff. cbn. set_solver.
    + intros ds id. rewrite Hiff, deliver_all_redeemed. cbn.
      split; [intros [? | ?]; [set_solver | done] | by right].
    + intros s d id Hu.
      destruct (unlocked_exact_code _ _ _ _ _ _ Hu) as (_ & _ & m & p0 & p1 & rest & Hm & Hs & Hc).
      destruct Hu as (_ & m' & Hm' & Hid & _).
      exists m, p0, p1, rest. split_and!; try done. congruence.
  - intros Hal Hcode red id. rewrite is_allowed_spec.
    rewrite bool_decide_eq_false_2 by (by intros ?).
    by rewrite (proj2 (nonempty_false _) Hcode).
Qed.

(** C3 on a concrete run: the code is SECRET, requester 42 sends a wrong
    code and then the right one, and is allowed from then on. *)
Lemma C3_access_decision_table_witness :
  let cfg := with_access ∅ "SECRET" cfg_open in
  let ds := [redeem_delivery 1 42 "/redeem wrong"; redeem_delivery 2 42 "/redeem  SECRET "] in
  _allow_ids cfg = ∅
  ∧ ACCESS_CODE cfg ≠ []
  ∧ _is_allowed_user cfg (_redeemed_ids state_init) 42 = false
  ∧ _is_allowed_user cfg
      (_redeemed_ids (deliver_all b64decode_canonical ascii_lower cfg state_init ds).1) 42
    = true.
Proof.
  intros cfg ds.
  assert (_allow_ids cfg = ∅) as Hal by done.
  assert (ACCESS_CODE cfg ≠ []) as Hcode by done.
  destruct (C3_access_decision_table b64decode_canonical ascii_lower cfg)
    as (_ & Hredeem & _).
  destruct (Hredeem Hal Hcode) as (_ & Hstart & Hruns & _).
  refine (conj Hal (conj Hcode (conj (Hstart 42) _))).
  apply Hruns.
  exists [redeem_delivery 1 42 "/redeem wrong"], (redeem_delivery 2 42 "/redeem  SECRET "), [].
  split; [done |]. split; [done |].
  exists (text_message 7 PRIVATE 2 42 "/redeem  SECRET ").
  split; [done |]. split; [done |]. vm_compute. reflexivity.
Defined.

(** C10: access only grows. No delivery removes a redeemed id, the
    allow-list and the code are constants of the process, so a requester
    who is allowed stays allowed whatever is delivered afterwards. *)
Theorem C10_access_monotone :
  ∀ (b64decode : json → pyresult bytes) (lower : list N → list N) (cfg : Config)
    (s : State) (ds : list Delivery) (id : Z),
    _redeemed_ids s ⊆ _redeemed_ids (deliver_all b64decode lower cfg s ds).1
    ∧ (_is_allowed_user cfg (_redeemed_ids s) id = true →
       _is_allowed_user cfg (_redeemed_ids (deliver_all b64decode lower cfg s ds).1) id = true).
Proof.
  intros b64decode lower cfg s ds id.
  pose proof (deliver_all_redeemed_mono b64decode lower cfg ds s) as Hsub.
  split; [done |]. by apply is_allowed_mono.
Qed.

(** C10 on a concrete run: requester 42, once unlocked, stays allowed
    through a wrong /redeem and a free-text message. *)
Lemma C10_access_monotone_witness :
  let cfg := with_access ∅ "SECRET" cfg_open in
  let s := {| seen := seen_init; _redeemed_ids := {[42]} |} in
  let ds := [redeem_delivery 1 42 "/redeem wrong"; group_hello] in
  _is_allowed_user cfg (_redeemed_ids s) 42 = true
  ∧ _is_allowed_user cfg
      (_redeemed_ids (deliver_all b64decode_canonical ascii_lower cfg s ds).1) 42 = true.
Proof.
  intros cfg s ds.
  assert (_is_allowed_user cfg (_redeemed_ids s) 42 = true) as Hnow
    by (vm_compute; reflexivity).
  exact (conj Hnow
           (proj2 (C10_access_monotone b64decode_canonical ascii_lower cfg s ds 42) Hnow)).
Defined.

(** * Properties of the provider layer *)

Lemma lstrip_head s c : head s = Some c → isspace c = false → lstrip s = s.
Proof. destruct s as [| c0 s]; [done |]. cbn. intros [= ->] ->. done. Qed.

Lemma head_reverse {A} (l : list A) : head (reverse l) = last l.
Proof.
  induction l as [| x l IH] using rev_ind; [done |].
  by rewrite reverse_snoc, last_snoc.
Qed.

(** A string that neither starts nor ends with whitespace is what
    [strip] returns for it. *)
Lemma strip_trimmed s : trimmed s → strip s = s.
Proof.
  intros (c & Hc & Hsp & c' & Hc' & Hsp'). unfold strip, rstrip.
  rewrite (lstrip_head s c) by done.
  rewrite (lstrip_head (reverse s) c') by (by rewrite ?head_reverse).
  apply reverse_involutive.
Qed.

Lemma trimmed_join p q : trimmed p → trimmed q → trimmed (p ++ lit " " ++ q).
Proof.
  intros (c & Hc & Hsp & _) (d & Hd & _ & c' & Hc' & Hsp').
  exists c. split_and!; [by destruct p | done |].
  exists c'. split; [| done].
  destruct q as [| d0 q] using rev_ind; [done |].
  rewrite last_snoc in Hc'. by rewrite !app_assoc, last_snoc.
Qed.

Section ProviderFacts.

Context (b64decode : json → pyresult bytes).

(** C4: the prompt handed to the selected adapter, and sent in its
    request, is the configured prefix, one space and the user prompt,
    trimmed, when the prefix is not empty (prefix P and prompt cat give
    exactly P cat), and the user prompt unchanged when it is empty. *)
Theorem C4_prompt_prefix :
  ∀ (cfg : Config) (w : World) (prompt : list N) (ref : list byte),
    let full := _prepend_prefix cfg prompt in
    (DEFAULT_PROMPT_PREFIX cfg ≠ [] →
       full = strip (DEFAULT_PROMPT_PREFIX cfg ++ lit " " ++ prompt))
    ∧ (DEFAULT_PROMPT_PREFIX cfg ≠ [] → trimmed (DEFAULT_PROMPT_PREFIX cfg) →
       trimmed prompt → full = DEFAULT_PROMPT_PREFIX cfg ++ lit " " ++ prompt)
    ∧ (DEFAULT_PROMPT_PREFIX cfg = lit "P" → prompt = lit "cat" → full = lit "P cat")
    ∧ (DEFAULT_PROMPT_PREFIX cfg = [] → full = prompt)
    ∧ generate_image_from_reference b64decode cfg w prompt ref =
        (if bool_decide (PROVIDER cfg = lit "stability")
         then _stability_img2img b64decode cfg w full ref
         else _openai_img_edit b64decode cfg w full ref)
    ∧ (STABILITY_API_KEY cfg ≠ [] →
       head (_stability_img2img b64decode cfg w full ref).1
         = Some (HttpPost (stability_request cfg full ref))
       ∧ form_get (req_data (stability_request cfg full ref)) (lit "text_prompts[0][text]")
         = Some full)
    ∧ (OPENAI_API_KEY cfg ≠ [] →
       head (_openai_img_edit b64decode cfg w full ref).1
         = Some (HttpPost (openai_request cfg w full ref))
       ∧ form_get (req_data (openai_request cfg w full ref)) (lit "prompt") = Some full).
Proof.
  intros cfg w prompt ref full. unfold full, _prepend_prefix. split_and!.
  - intros Hp. by rewrite (proj2 (nonempty_true _) Hp).
  - intros Hp Htp Htq. rewrite (proj2 (nonempty_true _) Hp).
    by apply strip_trimmed, trimmed_join.
  - intros -> ->. vm_compute. reflexivity.
  - intros ->. done.
  - done.
  - intros Hk. unfold _stability_img2img. rewrite (proj2 (nonempty_true _) Hk). cbn.
    split; [by destruct (http_post w _) | done].
  - intros Hk. unfold _openai_img_edit. rewrite (proj2 (nonempty_true _) Hk). cbn.
    split; [| done].
    destruct (http_post w _); [| done]. by destruct (openai_response _ _ _).
Qed.

End ProviderFacts.

(** C4 on the specification's example, sent to the OpenAI-style adapter. *)
Lemma C4_prompt_prefix_witness :
  let cfg := with_prefix "P" cfg_open in
  DEFAULT_PROMPT_PREFIX cfg ≠ []
  ∧ OPENAI_API_KEY cfg ≠ []
  ∧ _prepend_prefix cfg (lit "cat") = lit "P cat"
  ∧ form_get (req_data (openai_request cfg offline (_prepend_prefix cfg (lit "cat")) []))
      (lit "prompt") = Some (lit "P cat").
Proof.
  intros cfg.
  assert (DEFAULT_PROMPT_PREFIX cfg ≠ []) as Hp by done.
  assert (OPENAI_API_KEY cfg ≠ []) as Hk by done.
  pose proof (C4_prompt_prefix b64decode_canonical cfg offline (lit "cat") []) as Hc.
  cbv zeta in Hc. destruct Hc as (_ & _ & Hex & _ & _ & _ & Hreq).
  destruct (Hreq Hk) as [_ Hfield]. rewrite (Hex eq_refl eq_refl) in Hfield.
  exact (conj Hp (conj Hk (conj (Hex eq_refl eq_refl) Hfield))).
Defined.

Section Adapters.

Context (b64decode : json → pyresult bytes).

(** X20: what the Stability adapter makes of a response it can read. It
    fails with the status and the body text on every status other than
    200. On 200 it goes by the Content-Type: a JSON body that parses to an
    object whose artifacts list starts with an artifact holding a
    non-empty base64 value that decodes yields that value decoded; one
    with no or an empty artifacts list, or whose first artifact has no
    such value, fails with the no-image error; one that does not parse
    fails with the unexpected-format error; an image type yields the body
    as it is; anything else fails with the unrecognized-type error
    carrying the content type. *)
Theorem X20_stability_readable_response :
  ∀ (cfg : Config) (w : World) (prompt : list N) (ref : list byte) (r : Response),
    STABILITY_API_KEY cfg ≠ [] →
    http_post w (stability_request cfg prompt ref) = Some r →
    let result := (_stability_img2img b64decode cfg w prompt ref).2 in
    let ctype := default [] (resp_content_type r) in
    (status_code r ≠ 200 →
       result = RaiseImageGenError
                  (lit "Stability error " ++ str_of_int (status_code r) ++ lit ": "
                   ++ resp_text r))
    ∧ (status_code r = 200 → contains ctype (lit "application/json") = true →
       (∀ js a0 rest img,
          resp_json r = PyOk (JObj js) →
          dict_lookup js (lit "artifacts") = Some (JArr (JObj a0 :: rest)) →
          truthy (dict_get a0 (lit "base64")) = true →
          b64decode (dict_get a0 (lit "base64")) = PyOk img →
          result = Return img)
       ∧ (∀ js,
            resp_json r = PyOk (JObj js) →
            dict_lookup js (lit "artifacts") = None
            ∨ dict_lookup js (lit "artifacts") = Some (JArr [])
            ∨ (∃ a0 rest, dict_lookup js (lit "artifacts") = Some (JArr (JObj a0 :: rest))
                 ∧ truthy (dict_get a0 (lit "base64")) = false) →
            result = RaiseImageGenError (lit "No image in Stability response"))
       ∧ (∀ e, resp_json r = PyExc e →
            result = RaiseImageGenError (lit "Unexpected Stability response format: " ++ e)))
    ∧ (status_code r = 200 → contains ctype (lit "application/json") = false →
       startswith ctype (lit "image/") = true →
       result = Return (resp_content r))
    ∧ (status_code r = 200 → contains ctype (lit "application/json") = false →
       startswith ctype (lit "image/") = false →
       result = RaiseImageGenError (lit "Unrecognized Stability response type: " ++ ctype)).
Proof.
  intros cfg w prompt ref r Hkey Hpost result ctype.
  assert (result = stability_response b64decode r) as ->.
  { unfold result, _stability_img2img.
    by rewrite (proj2 (nonempty_true _) Hkey), Hpost. }
  unfold stability_response. fold ctype. split_and!.
  - intros Hst. by rewrite (proj2 (Z.eqb_neq _ _) Hst).
  - intros -> ->. cbn. split_and!.
    + intros js a0 rest img -> Harts Hb64 Hdec.
      unfold dict_get_default. rewrite Harts. cbn. by rewrite Hb64, Hdec.
    + intros js -> Hcase. unfold dict_get_default.
      destruct Hcase as [-> | [-> | (a0 & rest & -> & Hb64)]]; cbn; [done | done |].
      by rewrite Hb64.
    + by intros e ->.
  - intros -> -> ->. done.
  - intros -> -> ->. done.
Qed.

(** X21: what the OpenAI-style adapter makes of a response it can
    read. It fails with the status and the body on every status other
    than 200. On 200, for a body that parses to an object: no or an empty
    data list fails with the no-data error; when the list starts with an
    object, that entry is read in a fixed order: a non-empty inline
    base64 value is decoded and returned, and nothing is downloaded (a
    value that does not decode is the decode error); else a non-empty URL
    is fetched with a second GET, whose bytes are returned and whose
    every failure becomes the download error; else it fails with the
    no-image-payload error. *)
Theorem X21_openai_readable_response :
  ∀ (cfg : Config) (w : World) (prompt : list N) (ref : list byte) (r : Response),
    OPENAI_API_KEY cfg ≠ [] →
    http_post w (openai_request cfg w prompt ref) = Some r →
    let run := _openai_img_edit b64decode cfg w prompt ref in
    let post := HttpPost (openai_request cfg w prompt ref) in
    (status_code r ≠ 200 →
       run = ([post],
              RaiseImageGenError
                (lit "OpenAI error " ++ str_of_int (status_code r) ++ lit ": " ++ resp_text r)))
    ∧ (status_code r = 200 →
       ∀ js, resp_json r = PyOk (JObj js) →
         (truthy (dict_get js (lit "data")) = false →
            run = ([post], RaiseImageGenError (lit "OpenAI returned no data")))
         ∧ (∀ first rest,
              dict_get js (lit "data") = JArr (JObj first :: rest) →
              let b64 := dict_get first (lit "b64_json") in
              let url_field := dict_get first (lit "url") in
              (truthy b64 = true → ∀ img, b64decode b64 = PyOk img →
                 run = ([post], Return img))
              ∧ (truthy b64 = true → ∀ e, b64decode b64 = PyExc e →
                   run = ([post],
                          RaiseImageGenError
                            (lit "Failed to decode OpenAI base64 image: " ++ e)))
              ∧ (truthy b64 = false → truthy url_field = true →
                   (∀ img, http_get w url_field = PyOk img →
                      run = ([post; HttpGet url_field], Return img))
                   ∧ (∀ e, http_get w url_field = PyExc e →
                        run = ([post; HttpGet url_field],
                               RaiseImageGenError
                                 (lit "Failed to download image from OpenAI URL: " ++ e))))
              ∧ (truthy b64 = false → truthy url_field = false →
                   run = ([post],
                          RaiseImageGenError
                            (lit "No image payload in OpenAI response (no b64_json or url)."))))).
Proof.
  intros cfg w prompt ref r Hkey Hpost run post.
  assert (run = (post :: (openai_response b64decode w r).1,
                 (openai_response b64decode w r).2)) as ->.
  { unfold run, _openai_img_edit.
    rewrite (proj2 (nonempty_true _) Hkey), Hpost. cbn.
    by destruct (openai_response _ _ _). }
  unfold openai_response. split.
  - intros Hst. by rewrite (proj2 (Z.eqb_neq _ _) Hst).
  - intros -> js ->. cbn. split.
    + by intros ->.
    + intros first rest Hdata. cbv zeta. rewrite Hdata. cbn.
      split_and!.
      * by intros -> img ->.
      * by intros -> e ->.
      * intros -> ->. split; by intros ? ->.
      * by intros -> ->.
Qed.

End Adapters.

(** X20 on the specification's example: one artifact with valid base64. *)
Lemma X20_stability_readable_response_witness :
  let cfg := with_provider "stability" cfg_open in
  let w := answering stability_ok_json in
  STABILITY_API_KEY cfg ≠ []
  ∧ http_post w (stability_request cfg (lit "cat") []) = Some stability_ok_json
  ∧ (_stability_img2img b64decode_canonical cfg w (lit "cat") []).2
    = Return ["h"%byte; "i"%byte].
Proof.
  intros cfg w.
  assert (STABILITY_API_KEY cfg ≠ []) as Hkey by done.
  assert (http_post w (stability_request cfg (lit "cat") []) = Some stability_ok_json)
    as Hpost by done.
  pose proof (X20_stability_readable_response b64decode_canonical cfg w (lit "cat") []
                stability_ok_json Hkey Hpost) as Hc.
  cbv zeta in Hc. destruct Hc as (_ & Hjson & _).
  destruct (Hjson eq_refl eq_refl) as (Hdec & _).
  exact (conj Hkey (conj Hpost
           (Hdec _ _ [] ["h"%byte; "i"%byte] eq_refl eq_refl eq_refl eq_refl))).
Defined.

(** X21 on a response that holds both fields: the inline image wins and
    no download is made. *)
Lemma X21_openai_readable_response_witness :
  let w := answering openai_ok_b64 in
  OPENAI_API_KEY cfg_open ≠ []
  ∧ http_post w (openai_request cfg_open w (lit "cat") []) = Some openai_ok_b64
  ∧ _openai_img_edit b64decode_canonical cfg_open w (lit "cat") []
    = ([HttpPost (openai_request cfg_open w (lit "cat") [])], Return ["h"%byte; "i"%byte]).
Proof.
  intros w.
  assert (OPENAI_API_KEY cfg_open ≠ []) as Hkey by done.
  assert (http_post w (openai_request cfg_open w (lit "cat") []) = Some openai_ok_b64)
    as Hpost by done.
  pose proof (X21_openai_readable_response b64decode_canonical cfg_open w (lit "cat") []
                openai_ok_b64 Hkey Hpost) as Hc.
  cbv zeta in Hc. destruct Hc as (_ & H200).
  destruct (H200 eq_refl _ eq_refl) as (_ & Hfirst).
  destruct (Hfirst _ [] eq_refl) as (Hb64 & _).
  exact (conj Hkey (conj Hpost (Hb64 eq_refl _ eq_refl))).
Defined.

(** * Properties of the request pipeline *)

Section Pipeline.

Context (b64decode : json → pyresult bytes) (lower : list N → list N) (cfg : Config).

Lemma reply_events_provider w prompt ref :
  reply_events (generate_image_from_reference b64decode cfg w prompt ref).1 = [].
Proof.
  unfold generate_image_from_reference, _stability_img2img, _openai_img_edit.
  repeat case_match; cbn; try done.
  match goal with H : openai_response _ _ _ = _ |- _ => revert H end.
  unfold openai_response. repeat case_match; intros [= <- <-]; done.
Qed.

(** An admitted /pic with a prompt is handed to [_generate_and_reply]. *)
Lemma pic_cmd_dispatch s u m w :
  message u = Some m →
  (_already_processed (seen s) u).1 = false →
  _is_allowed_user cfg (_redeemed_ids s) (from_user_id m) = true →
  extract_pic_prompt m ≠ [] →
  pic_cmd b64decode lower cfg s u w
    = generate_run b64decode lower cfg (check_seen s u).2 w (extract_pic_prompt m).
Proof.
  intros Hm Hnew Hok Hne. unfold pic_cmd.
  rewrite check_seen_eq, Hm, Hnew. cbn -[extract_pic_prompt].
  by rewrite Hok, (proj2 (nonempty_true _) Hne).
Qed.

(** An admitted free-text prompt outside groups is handed to
    [_generate_and_reply], trimmed. *)
Lemma handle_text_dispatch s u m t w :
  message u = Some m → text m = Some t →
  is_group (chat_type m) = false →
  (_already_processed (seen s) u).1 = false →
  _is_allowed_user cfg (_redeemed_ids s) (from_user_id m) = true →
  strip t ≠ [] → startswith (strip t) (lit "/") = false →
  handle_text b64decode lower cfg s u w
    = generate_run b64decode lower cfg (check_seen s u).2 w (strip t).
Proof.
  intros Hm Ht Hpriv Hnew Hok Hne Hslash.
  assert (nonempty t = true) as Htne by (by destruct t).
  unfold handle_text. rewrite check_seen_eq, Hm, Hnew. cbn -[lit strip startswith].
  unfold text_or_empty. rewrite Ht, Hpriv, Hok. cbn -[lit strip startswith].
  by rewrite Htne, Hslash, (proj2 (nonempty_true _) Hne).
Qed.

Lemma generate_run_events s w prompt :
  run_events (generate_run b64decode lower cfg s w prompt)
    = (_generate_and_reply b64decode lower cfg w prompt).1.
Proof. unfold generate_run. by destruct (_generate_and_reply _ _ _ _ _). Qed.

(** X22: when generation fails with [ImageGenError], the requester gets
    exactly one reply, and it is one of two fixed notices: the
    content-restriction notice iff the lowered error text contains
    moderation, safety or rejected, the generic failure notice otherwise.
    The reply is the notice alone, whatever the error text. *)
Theorem X22_image_gen_error_notice :
  ∀ (w : World) (user_prompt msg : list N) (evs : list Event),
    generate_image_from_reference b64decode cfg w user_prompt (REF_BYTES cfg)
      = (evs, RaiseImageGenError msg) →
    let notice :=
      if is_restricted (lower msg) then MSG_RESTRICTED_CONTENT else MSG_WENT_WRONG in
    _generate_and_reply b64decode lower cfg w user_prompt
      = (SendAction :: evs ++ [ReplyText notice], true)
    ∧ reply_events (_generate_and_reply b64decode lower cfg w user_prompt).1
      = [ReplyText notice]
    ∧ (notice = MSG_RESTRICTED_CONTENT ↔ is_restricted (lower msg) = true)
    ∧ (notice = MSG_WENT_WRONG ↔ is_restricted (lower msg) = false)
    ∧ (∀ s u m, message u = Some m →
         (_already_processed (seen s) u).1 = false →
         _is_allowed_user cfg (_redeemed_ids s) (from_user_id m) = true →
         extract_pic_prompt m = user_prompt → user_prompt ≠ [] →
         reply_events (run_events (pic_cmd b64decode lower cfg s u w)) = [ReplyText notice])
    ∧ (∀ s u m t, message u = Some m → text m = Some t →
         is_group (chat_type m) = false →
         (_already_processed (seen s) u).1 = false →
         _is_allowed_user cfg (_redeemed_ids s) (from_user_id m) = true →
         strip t = user_prompt → user_prompt ≠ [] →
         startswith user_prompt (lit "/") = false →
         reply_events (run_events (handle_text b64decode lower cfg s u w))
           = [ReplyText notice]).
Proof.
  intros w user_prompt msg evs Hgen notice.
  pose proof (reply_events_provider w user_prompt (REF_BYTES cfg)) as Hnone.
  assert (_generate_and_reply b64decode lower cfg w user_prompt
          = (SendAction :: evs ++ [ReplyText notice], true)) as Hrun.
  { unfold _generate_and_reply. rewrite Hgen.
    fold (is_restricted (lower msg)). unfold notice.
    by destruct (is_restricted (lower msg)). }
  assert (reply_events (_generate_and_reply b64decode lower cfg w user_prompt).1
          = [ReplyText notice]) as Hreply.
  { rewrite Hrun. rewrite Hgen in Hnone. cbn in Hnone |- *.
    unfold reply_events in *. by rewrite List.filter_app, Hnone. }
  split_and!; try done.
  - unfold notice. destruct (is_restricted (lower msg)); split; done.
  - unfold notice. destruct (is_restricted (lower msg)); split; done.
  - intros s u m Hm Hnew Hok Hp Hne. subst user_prompt.
    by rewrite (pic_cmd_dispatch s u m w), generate_run_events.
  - intros s u m t Hm Ht Hpriv Hnew Hok Hp Hne Hslash. subst user_prompt.
    by rewrite (handle_text_dispatch s u m t w), generate_run_events.
Qed.

(** The events of [_generate_and_reply]: the chat action, then what the
    provider layer does for the prompt, then at most the reply. *)
Lemma generate_and_reply_events w user_prompt :
  ∃ tail,
    (_generate_and_reply b64decode lower cfg w user_prompt).1
    = SendAction
      :: (generate_image_from_reference b64decode cfg w user_prompt (REF_BYTES cfg)).1
         ++ tail.
Proof.
  unfold _generate_and_reply.
  destruct (generate_image_from_reference _ _ _ _ _) as [evs out].
  destruct out as [img | msg |]; [| destruct (_ || _) |]; cbn [fst];
    [by eexists .. | exists []; by rewrite app_nil_r].
Qed.

(** With its key set, the selected adapter starts by posting the request
    that carries the prompt, prefix applied. *)
Lemma generate_posts_prompt w user_prompt :
  selected_key cfg ≠ [] →
  ∃ evs,
    (generate_image_from_reference b64decode cfg w user_prompt (REF_BYTES cfg)).1
    = HttpPost (selected_request cfg w user_prompt) :: evs.
Proof.
  unfold generate_image_from_reference, selected_request, selected_key.
  unfold _stability_img2img, _openai_img_edit.
  destruct (bool_decide (PROVIDER cfg = lit "stability")); intros Hkey;
    rewrite (proj2 (nonempty_true _) Hkey); cbn [negb].
  - destruct (http_post w _); by eexists.
  - destruct (http_post w _); [| by eexists].
    destruct (openai_response _ _ _). by eexists.
Qed.

Lemma selected_request_prompt w user_prompt :
  form_get (req_data (selected_request cfg w user_prompt)) (prompt_field cfg)
  = Some (_prepend_prefix cfg user_prompt).
Proof.
  unfold selected_request, prompt_field.
  by destruct (bool_decide (PROVIDER cfg = lit "stability")).
Qed.

(** C8: the free-text handler generates only outside groups. In a group
    or supergroup, and for an update without a message, it ends with no
    event at all: no reply and no provider call. In a direct conversation,
    a new message of an allowed requester whose trimmed text is not empty
    and does not start with a slash is dispatched: the handler sends the
    chat action and calls the provider layer with the trimmed text as the
    prompt, and with the selected adapter's key set the next event is the
    POST to the provider whose prompt field is that text, prefix
    applied. *)
Theorem C8_free_text_private_only :
  ∀ (s : State) (u : Update) (w : World),
    (∀ m, message u = Some m → chat_type m = GROUP ∨ chat_type m = SUPERGROUP →
       run_events (handle_text b64decode lower cfg s u w) = []
       ∧ replies (run_events (handle_text b64decode lower cfg s u w)) = 0%nat
       ∧ provider_calls (run_events (handle_text b64decode lower cfg s u w)) = 0%nat)
    ∧ (message u = None → run_events (handle_text b64decode lower cfg s u w) = [])
    ∧ (∀ m t, message u = Some m → chat_type m = PRIVATE → text m = Some t →
         (_already_processed (seen s) u).1 = false →
         _is_allowed_user cfg (_redeemed_ids s) (from_user_id m) = true →
         strip t ≠ [] → startswith (strip t) (lit "/") = false →
         handle_text b64decode lower cfg s u w
           = generate_run b64decode lower cfg (check_seen s u).2 w (strip t)
         ∧ run_events (handle_text b64decode lower cfg s u w)
           = (_generate_and_reply b64decode lower cfg w (strip t)).1
         ∧ (∃ tail,
              run_events (handle_text b64decode lower cfg s u w)
              = SendAction
                :: (generate_image_from_reference b64decode cfg w (strip t)
                      (REF_BYTES cfg)).1 ++ tail)
         ∧ (selected_key cfg ≠ [] →
            ∃ rest,
              run_events (handle_text b64decode lower cfg s u w)
              = SendAction :: HttpPost (selected_request cfg w (strip t)) :: rest)
         ∧ form_get (req_data (selected_request cfg w (strip t))) (prompt_field cfg)
           = Some (_prepend_prefix cfg (strip t))).
Proof.
  intros s u w. split_and!.
  - intros m Hm Hgroup.
    assert (run_events (handle_text b64decode lower cfg s u w) = []) as ->; [| done].
    unfold handle_text. rewrite check_seen_eq, Hm. cbn.
    destruct (_already_processed (seen s) u).1; [done |].
    destruct (negb (nonempty (text_or_empty m))); [done |].
    by destruct Hgroup as [-> | ->].
  - intros Hm. unfold handle_text. rewrite check_seen_eq, Hm. cbn.
    by destruct (_already_processed (seen s) u).1.
  - intros m t Hm Hpriv Ht Hnew Hok Hne Hslash.
    rewrite (handle_text_dispatch s u m t w) by (try done; by rewrite Hpriv).
    rewrite generate_run_events.
    destruct (generate_and_reply_events w (strip t)) as [tail Htail].
    split_and!; [done | done | by exists tail | | apply selected_request_prompt].
    intros Hkey. destruct (generate_posts_prompt w (strip t) Hkey) as [evs Hevs].
    rewrite Htail, Hevs. by eexists.
Qed.

(** A command word alone carries no prompt. *)
Lemma extract_pic_prompt_bare m t p0 :
  text m = Some t → split1 (strip t) = [p0] → extract_pic_prompt m = [].
Proof.
  intros Ht Hs. unfold extract_pic_prompt, text_or_empty. rewrite Ht.
  cbn -[lit strip split1 startswith]. rewrite Hs.
  by repeat case_match.
Qed.

(** C9 (as amended): an admitted /pic whose extracted prompt is empty,
    as for the command word alone, is answered with the usage line and
    nothing is sent to the provider; an admitted free-text message that
    trims to nothing ends with no event at all: no reply and no provider
    call. *)
Theorem C9_no_prompt :
  ∀ (s : State) (u : Update) (m : Message) (w : World),
    message u = Some m →
    (_already_processed (seen s) u).1 = false →
    _is_allowed_user cfg (_redeemed_ids s) (from_user_id m) = true →
    (extract_pic_prompt m = [] →
       pic_cmd b64decode lower cfg s u w
         = returned (check_seen s u).2 [ReplyText MSG_USAGE_PIC]
       ∧ replies (run_events (pic_cmd b64decode lower cfg s u w)) = 1%nat
       ∧ provider_calls (run_events (pic_cmd b64decode lower cfg s u w)) = 0%nat)
    ∧ (∀ t p0, text m = Some t → split1 (strip t) = [p0] → extract_pic_prompt m = [])
    ∧ (strip (text_or_empty m) = [] →
       handle_text b64decode lower cfg s u w = returned (check_seen s u).2 []
       ∧ replies (run_events (handle_text b64decode lower cfg s u w)) = 0%nat
       ∧ provider_calls (run_events (handle_text b64decode lower cfg s u w)) = 0%nat).
Proof.
  intros s u m w Hm Hnew Hok. split_and!.
  - intros Hempty.
    assert (pic_cmd b64decode lower cfg s u w
            = returned (check_seen s u).2 [ReplyText MSG_USAGE_PIC]) as ->; [| done].
    unfold pic_cmd. rewrite check_seen_eq, Hm, Hnew. cbn. by rewrite Hok, Hempty.
  - intros t p0. apply extract_pic_prompt_bare.
  - intros Hempty.
    assert (handle_text b64decode lower cfg s u w = returned (check_seen s u).2 [])
      as ->; [| done].
    unfold handle_text. rewrite check_seen_eq, Hm, Hnew. cbn. rewrite Hok, Hempty. cbn.
    by repeat case_match.
Qed.

End Pipeline.

(** X22 on a concrete failure: a 400 whose body mentions the Safety system. *)
Lemma X22_image_gen_error_notice_witness :
  let w := answering openai_rejected in
  let req := openai_request cfg_open w (lit "cat") (REF_BYTES cfg_open) in
  let msg := lit "OpenAI error 400: Your request was rejected as a result of our Safety system." in
  generate_image_from_reference b64decode_canonical cfg_open w (lit "cat") (REF_BYTES cfg_open)
    = ([HttpPost req], RaiseImageGenError msg)
  ∧ reply_events (_generate_and_reply b64decode_canonical ascii_lower cfg_open w (lit "cat")).1
    = [ReplyText MSG_RESTRICTED_CONTENT].
Proof.
  intros w req msg.
  assert (generate_image_from_reference b64decode_canonical cfg_open w (lit "cat")
            (REF_BYTES cfg_open) = ([HttpPost req], RaiseImageGenError msg)) as Hgen
    by (vm_compute; reflexivity).
  pose proof (X22_image_gen_error_notice b64decode_canonical ascii_lower cfg_open w (lit "cat")
                msg [HttpPost req] Hgen) as Hc.
  cbv zeta in Hc. destruct Hc as (_ & Hreply & _).
  exact (conj Hgen Hreply).
Defined.

(** C8 on a concrete direct message: the chat action, then the POST
    whose prompt field is the trimmed text. *)
Lemma C8_free_text_private_only_witness :
  let m := text_message 7 PRIVATE 1 42 " a red bicycle " in
  let w := answering openai_ok_b64 in
  chat_type m = PRIVATE
  ∧ (_already_processed (seen state_init) private_prompt).1 = false
  ∧ _is_allowed_user cfg_open (_redeemed_ids state_init) (from_user_id m) = true
  ∧ strip (lit " a red bicycle ") = lit "a red bicycle"
  ∧ selected_key cfg_open ≠ []
  ∧ (∃ rest,
       run_events (handle_text b64decode_canonical ascii_lower cfg_open state_init
                     private_prompt w)
       = SendAction :: HttpPost (selected_request cfg_open w (lit "a red bicycle")) :: rest)
  ∧ form_get (req_data (selected_request cfg_open w (lit "a red bicycle"))) (lit "prompt")
    = Some (lit "a red bicycle").
Proof.
  intros m w.
  assert ((_already_processed (seen state_init) private_prompt).1 = false) as Hnew
    by (vm_compute; reflexivity).
  assert (_is_allowed_user cfg_open (_redeemed_ids state_init) (from_user_id m) = true)
    as Hok by (vm_compute; reflexivity).
  assert (strip (lit " a red bicycle ") = lit "a red bicycle") as Hstrip
    by (vm_compute; reflexivity).
  assert (selected_key cfg_open ≠ []) as Hkey by done.
  destruct (C8_free_text_private_only b64decode_canonical ascii_lower cfg_open state_init
              private_prompt w) as (_ & _ & Hpriv).
  destruct (Hpriv m (lit " a red bicycle ") eq_refl eq_refl eq_refl Hnew Hok
              ltac:(by rewrite Hstrip) ltac:(by rewrite Hstrip))
    as (_ & _ & _ & Hpost & Hfield).
  specialize (Hpost Hkey). rewrite Hstrip in Hpost, Hfield.
  exact (conj eq_refl (conj Hnew (conj Hok (conj Hstrip (conj Hkey (conj Hpost Hfield)))))).
Defined.

(** C9, as stated, fails for free text: a blank message of an allowed
    requester in a direct conversation gets no usage reply, and no reply
    at all. *)
Lemma C9_blank_text_gets_no_reply :
  (_already_processed (seen state_init) blank_text).1 = false
  ∧ _is_allowed_user cfg_open (_redeemed_ids state_init) 42 = true
  ∧ strip (lit "  ") = []
  ∧ run_events (handle_text b64decode_canonical ascii_lower cfg_open state_init
                  blank_text offline) = [].
Proof. vm_compute. repeat split; reflexivity. Qed.

(** C9 on the bare command: /pic alone is answered with the usage line. *)
Lemma C9_no_prompt_witness :
  let m := text_message 7 PRIVATE 1 42 "/pic" in
  (_already_processed (seen state_init) bare_pic).1 = false
  ∧ _is_allowed_user cfg_open (_redeemed_ids state_init) (from_user_id m) = true
  ∧ extract_pic_prompt m = []
  ∧ run_events (pic_cmd b64decode_canonical ascii_lower cfg_open state_init bare_pic offline)
    = [ReplyText MSG_USAGE_PIC].
Proof.
  intros m.
  assert ((_already_processed (seen state_init) bare_pic).1 = false) as Hnew
    by (vm_compute; reflexivity).
  assert (_is_allowed_user cfg_open (_redeemed_ids state_init) (from_user_id m) = true)
    as Hok by (vm_compute; reflexivity).
  destruct (C9_no_prompt b64decode_canonical ascii_lower cfg_open state_init bare_pic m
              offline eq_refl Hnew Hok) as (Hpic & Hbare & _).
  pose proof (Hbare (lit "/pic") (lit "/pic") eq_refl ltac:(vm_compute; reflexivity))
    as Hempty.
  destruct (Hpic Hempty) as [Heq _].
  exact (conj Hnew (conj Hok (conj Hempty (f_equal run_events Heq)))).
Defined.

(** * Further properties of the de-duplication guard *)

Lemma seen_updates_snoc s us u :
  seen_updates s (us ++ [u]) = (_already_processed (seen_updates s us) u).2.
Proof. unfold seen_updates. by rewrite foldl_snoc. Qed.

(** Updates without a message leave the window alone: the guard over
    updates is the guard over the identities they carry. *)
Lemma seen_updates_keys s us : seen_updates s us = seen_all s (update_keys us).
Proof.
  induction us as [| u us IH] using rev_ind; [done |].
  rewrite seen_updates_snoc, IH. unfold update_keys. rewrite omap_app. cbn.
  unfold _already_processed. destruct (message u) as [m |]; cbn.
  - by rewrite seen_all_snoc.
  - by rewrite app_nil_r.
Qed.

Lemma update_keys_length us : (length (update_keys us) ≤ length us)%nat.
Proof.
  unfold update_keys. induction us as [| u us IH]; cbn; [done |].
  destruct (message u); cbn; lia.
Qed.

(** Distinct unseen identities fed to any window: the deque is the old
    one followed by them, cut to its last [_MAX_SEEN] entries. *)
Lemma seen_all_order_from s ks :
  seen_inv s → NoDup ks → (∀ k, k ∈ ks → k ∉ _SEEN_MSGS s) →
  _SEEN_ORDER (seen_all s ks)
    = drop (length (_SEEN_ORDER s) + length ks - Z.to_nat _MAX_SEEN) (_SEEN_ORDER s ++ ks).
Proof.
  pose proof MAX_SEEN_pos as HM. intros Hs.
  pose proof (inv_bound _ Hs) as Hb.
  induction ks as [| k ks IH] using rev_ind; intros Hnd Hnew.
  { cbn. rewrite app_nil_r.
    replace (length (_SEEN_ORDER s) + 0 - Z.to_nat _MAX_SEEN)%nat with 0%nat by lia. done. }
  apply NoDup_app in Hnd as (Hnd & Hk & _).
  assert (∀ x, x ∈ ks → x ∉ _SEEN_MSGS s) as Hnew'.
  { intros x Hx. apply Hnew, elem_of_app. by left. }
  specialize (IH Hnd Hnew'). rewrite seen_all_snoc.
  pose proof (seen_all_inv s ks Hs) as Hinv.
  set (s' := seen_all s ks) in *.
  assert (k ∉ _SEEN_ORDER s') as Hko.
  { rewrite IH. intros [Hin | Hin]%(subseteq_drop _ _)%elem_of_app.
    - apply (Hnew k); [apply elem_of_app; right; by left |]. by apply (inv_same _ Hs).
    - apply (Hk k); [done | by left]. }
  assert (k ∉ _SEEN_MSGS s') as Hks by (by rewrite (inv_same _ Hinv)).
  assert (length (_SEEN_ORDER s')
          = (length (_SEEN_ORDER s) + length ks
             - (length (_SEEN_ORDER s) + length ks - Z.to_nat _MAX_SEEN))%nat) as Hlen
    by (by rewrite IH, length_drop, length_app).
  rewrite length_app. cbn [length]. rewrite app_assoc.
  destruct (decide (Z.of_nat (length (_SEEN_ORDER s')) < _MAX_SEEN)) as [Hlt | Hge].
  - rewrite seen_key_below by done. cbn.
    replace (length (_SEEN_ORDER s) + (length ks + 1) - Z.to_nat _MAX_SEEN)%nat
      with 0%nat by lia.
    rewrite IH.
    replace (length (_SEEN_ORDER s) + length ks - Z.to_nat _MAX_SEEN)%nat with 0%nat by lia.
    done.
  - destruct (_SEEN_ORDER s') as [| old t] eqn:Ho.
    { cbn in Hge. lia. }
    erewrite seen_key_full by (try done; rewrite Ho; lia). cbn.
    assert (t = drop 1 (old :: t)) as -> by done.
    rewrite IH, drop_drop.
    rewrite (drop_app_le (_SEEN_ORDER s ++ ks)) by (rewrite length_app; cbn in *; lia).
    f_equal. f_equal. cbn in *. lia.
Qed.

(** X1: eviction is by arrival order and final. Once [_MAX_SEEN]
    distinct identities that the window does not hold have been checked,
    nothing the window held before is in it any more: such an identity is
    reported as new again. *)
Theorem X1_evicted_after_capacity :
  ∀ (s : Seen) (k : Z * Z) (ks : list (Z * Z)),
    seen_inv s → k ∈ _SEEN_MSGS s →
    NoDup ks → (∀ x, x ∈ ks → x ∉ _SEEN_MSGS s) →
    _MAX_SEEN <= Z.of_nat (length ks) →
    (k ∉ _SEEN_MSGS (seen_all s ks))
    ∧ (seen_key (seen_all s ks) k).1 = false
    ∧ (∀ x, x ∈ _SEEN_MSGS (seen_all s ks) → x ∈ ks).
Proof.
  intros s k ks Hs Hk Hnd Hnew Hlen.
  pose proof (seen_all_inv s ks Hs) as Hinv.
  pose proof (inv_bound _ Hs) as Hb.
  assert (∀ x, x ∈ _SEEN_MSGS (seen_all s ks) → x ∈ ks) as Hsub.
  { intros x. rewrite (inv_same _ Hinv), seen_all_order_from by done.
    replace (length (_SEEN_ORDER s) + length ks - Z.to_nat _MAX_SEEN)%nat
      with (length (_SEEN_ORDER s) + (length ks - Z.to_nat _MAX_SEEN))%nat by lia.
    rewrite drop_app_add. apply subseteq_drop. }
  assert (k ∉ _SEEN_MSGS (seen_all s ks)) as Hgone.
  { intros Hin. apply (Hnew k); [by apply Hsub | done]. }
  split_and!; [done | by apply seen_key_new | done].
Qed.

(** Where a recorded identity sits: [k] is in the deque with at most [j]
    entries behind it. *)
Lemma seen_key_position s k x pre post :
  seen_inv s → _SEEN_ORDER s = pre ++ k :: post →
  Z.of_nat (length post) + 1 < _MAX_SEEN →
  ∃ pre' post', _SEEN_ORDER (seen_key s x).2 = pre' ++ k :: post'
                ∧ (length post' ≤ S (length post))%nat.
Proof.
  intros Hs Ho Hj.
  destruct (decide (x ∈ _SEEN_MSGS s)) as [Hin | Hout].
  { rewrite seen_key_dup by done. exists pre, post. split; [done | lia]. }
  destruct (decide (Z.of_nat (length (_SEEN_ORDER s)) < _MAX_SEEN)) as [Hlt | Hge].
  - rewrite seen_key_below by done. cbn. exists pre, (post ++ [x]).
    rewrite Ho, <- app_assoc. split; [done |]. rewrite length_app. cbn. lia.
  - destruct pre as [| old pre].
    { rewrite Ho in Hge. cbn in Hge. lia. }
    erewrite seen_key_full by (try done; lia). cbn.
    exists pre, (post ++ [x]). rewrite <- app_assoc. split; [done |].
    rewrite length_app. cbn. lia.
Qed.

Lemma seen_all_position s k ks pre :
  seen_inv s → _SEEN_ORDER s = pre ++ [k] →
  Z.of_nat (length ks) < _MAX_SEEN →
  ∃ pre' post', _SEEN_ORDER (seen_all s ks) = pre' ++ k :: post'
                ∧ (length post' ≤ length ks)%nat.
Proof.
  intros Hs Ho. induction ks as [| x ks IH] using rev_ind; intros Hlen.
  { exists pre, []. split; [done | cbn; lia]. }
  rewrite length_app in Hlen. cbn in Hlen.
  destruct IH as (pre' & post' & Ho' & Hp); [lia |].
  rewrite seen_all_snoc.
  destruct (seen_key_position (seen_all s ks) k x pre' post') as (p & q & Hq & Hl);
    [by apply seen_all_inv | done | lia |].
  exists p, q. split; [done |]. rewrite length_app. cbn. lia.
Qed.

Lemma seen_key_tail s k :
  seen_inv s → k ∉ _SEEN_MSGS s → ∃ pre, _SEEN_ORDER (seen_key s k).2 = pre ++ [k].
Proof.
  intros Hs Hk.
  destruct (decide (Z.of_nat (length (_SEEN_ORDER s)) < _MAX_SEEN)) as [Hlt | Hge].
  - rewrite seen_key_below by done. by eexists.
  - destruct (_SEEN_ORDER s) as [| old t] eqn:Ho.
    { cbn in Hge. pose proof MAX_SEEN_pos. lia. }
    erewrite seen_key_full by (try done; rewrite Ho; lia). by eexists.
Qed.

(** A new identity stays in the window through the next
    [_MAX_SEEN - 1] checks, whatever they are. *)
Lemma seen_all_retained s k ks :
  seen_inv s → k ∉ _SEEN_MSGS s →
  Z.of_nat (length ks) < _MAX_SEEN →
  k ∈ _SEEN_MSGS (seen_all (seen_key s k).2 ks).
Proof.
  intros Hs Hk Hlen.
  pose proof (seen_key_inv s k Hs) as Hs1.
  destruct (seen_key_tail s k Hs Hk) as [pre Ho].
  destruct (seen_all_position _ k ks pre Hs1 Ho Hlen) as (p & q & Hq & _).
  apply (inv_same _ (seen_all_inv _ ks Hs1)). rewrite Hq. set_solver.
Qed.

Lemma fresh_keys_chat n x : x ∈ fresh_keys n → x.1 = 7.
Proof. unfold fresh_keys. intros (i & -> & _)%list_elem_of_fmap. done. Qed.

(** X1 on a concrete window: one identity, then 5000 others. *)
Lemma X1_evicted_after_capacity_witness :
  let s := (seen_key seen_init (9, 9)).2 in
  (9, 9) ∈ _SEEN_MSGS s
  ∧ _MAX_SEEN <= Z.of_nat (length (fresh_keys 5000))
  ∧ (seen_key (seen_all s (fresh_keys 5000)) (9, 9)).1 = false.
Proof.
  intros s.
  assert (seen_inv s) as Hs by apply seen_key_inv, seen_inv_init.
  assert ((9, 9) ∈ _SEEN_MSGS s) as Hk by (cbn; set_solver).
  assert (∀ x, x ∈ fresh_keys 5000 → x ∉ _SEEN_MSGS s) as Hnew.
  { intros x Hx%fresh_keys_chat [-> | Hin%elem_of_empty]%seen_key_members; done. }
  assert (_MAX_SEEN <= Z.of_nat (length (fresh_keys 5000))) as Hlen.
  { rewrite fresh_keys_length by lia. unfold _MAX_SEEN. lia. }
  destruct (X1_evicted_after_capacity s (9, 9) (fresh_keys 5000) Hs Hk
              (fresh_keys_NoDup 5000) Hnew Hlen) as (_ & Hnewagain & _).
  exact (conj Hk (conj Hlen Hnewagain)).
Defined.

Section WindowInPipeline.

Context (b64decode : json → pyresult bytes) (lower : list N → list N) (cfg : Config).

Local Abbreviation run_all := (deliver_all b64decode lower cfg).

Lemma deliver_all_seen ds : ∀ s,
  seen (run_all s ds).1 = seen_updates (seen s) (d_update <$> ds).
Proof.
  induction ds as [| d ds IH]; intros s; [done |].
  rewrite deliver_all_cons, IH. unfold deliver. by rewrite run_seen.
Qed.

(** X2: a delivery is recorded as handled whatever becomes of it. The
    window after any deliveries is the guard applied to the identities of
    their messages, in order: it does not depend on the handler, on the
    requester's access or on how generation ended, and it keeps the
    window invariant. *)
Theorem X2_window_ignores_outcomes :
  ∀ (s : State) (ds : list Delivery),
    seen (run_all s ds).1 = seen_all (seen s) (update_keys (d_update <$> ds))
    ∧ (seen_inv (seen s) → seen_inv (seen (run_all s ds).1)).
Proof.
  intros s ds. rewrite deliver_all_seen, seen_updates_keys.
  split; [done | apply seen_all_inv].
Qed.

(** X3: a new message, once handled, is dropped on redelivery as long as
    fewer than [_MAX_SEEN] other deliveries came in between: the
    redelivery sends nothing and changes nothing. *)
Theorem X3_redelivery_dropped_within_window :
  ∀ (s : State) (d d' : Delivery) (ds : list Delivery) (m m' : Message),
    seen_inv (seen s) →
    message (d_update d) = Some m →
    key_of m ∉ _SEEN_MSGS (seen s) →
    Z.of_nat (length ds) < _MAX_SEEN →
    message (d_update d') = Some m' →
    key_of m' = key_of m →
    let s2 := (run_all (run_state (deliver b64decode lower cfg s d)) ds).1 in
    deliver b64decode lower cfg s2 d' = returned s2 [].
Proof.
  intros s d d' ds m m' Hs Hm Hnew Hlen Hm' Hkey s2.
  apply run_duplicate.
  assert (key_of m ∈ _SEEN_MSGS (seen s2)) as Hin.
  { unfold s2. rewrite deliver_all_seen, seen_updates_keys.
    unfold deliver. rewrite run_seen. unfold _already_processed. rewrite Hm. cbn.
    apply seen_all_retained; [done | done |].
    pose proof (update_keys_length (d_update <$> ds)) as Hle.
    rewrite length_fmap in Hle. lia. }
  rewrite (already_processed_seen _ _ m'); [done | done | by rewrite Hkey].
Qed.

End WindowInPipeline.

(** X3 on a concrete run: /start, a group message, then /start again. *)
Lemma X3_redelivery_dropped_within_window_witness :
  let d := {| d_handler := H_start;
              d_update := update_of (text_message 7 PRIVATE 5 42 "/start");
              d_world := offline |} in
  let s2 := (deliver_all b64decode_canonical ascii_lower cfg_open
               (run_state (deliver b64decode_canonical ascii_lower cfg_open state_init d))
               [group_hello]).1 in
  seen_inv (seen state_init)
  ∧ Z.of_nat (length [group_hello]) < _MAX_SEEN
  ∧ deliver b64decode_canonical ascii_lower cfg_open s2 d = returned s2 [].
Proof.
  intros d s2.
  assert (Z.of_nat (length [group_hello]) < _MAX_SEEN) as Hlen by (vm_compute; reflexivity).
  assert (key_of (text_message 7 PRIVATE 5 42 "/start") ∉ _SEEN_MSGS (seen state_init))
    as Hnew by (cbn; set_solver).
  exact (conj seen_inv_init (conj Hlen
    (X3_redelivery_dropped_within_window b64decode_canonical ascii_lower cfg_open
       state_init d d [group_hello] _ _ seen_inv_init eq_refl Hnew Hlen eq_refl eq_refl))).
Defined.

(** X2 on a concrete run: the window after two deliveries, one of them
    ignored by its handler and one without a message. *)
Lemma X2_window_ignores_outcomes_witness :
  let ds := [group_hello;
             {| d_handler := H_pic; d_update := {| message := None |}; d_world := offline |}] in
  seen_inv (seen state_init)
  ∧ _SEEN_ORDER (seen (deliver_all b64decode_canonical ascii_lower cfg_open state_init ds).1)
    = [(7, 1)]
  ∧ seen_inv (seen (deliver_all b64decode_canonical ascii_lower cfg_open state_init ds).1).
Proof.
  intros ds.
  destruct (X2_window_ignores_outcomes b64decode_canonical ascii_lower cfg_open
              state_init ds) as [Heq Hinv].
  refine (conj seen_inv_init (conj _ (Hinv seen_inv_init))).
  rewrite Heq. vm_compute. reflexivity.
Defined.

(** * Further properties of prompt and code parsing *)

Lemma lstrip_all_space ws s : all_space ws → lstrip (ws ++ s) = lstrip s.
Proof.
  unfold all_space. induction ws as [| c ws IH]; cbn; [done |].
  intros [Hc Hws]%andb_true_iff. rewrite Hc. by apply IH.
Qed.

Lemma lstrip_app x y :
  lstrip (x ++ y) = match lstrip x with [] => lstrip y | _ => lstrip x ++ y end.
Proof.
  induction x as [| c x IH]; cbn; [by destruct (lstrip y) |].
  destruct (isspace c); [done |]. done.
Qed.

Lemma all_space_reverse ws : all_space ws → all_space (reverse ws).
Proof.
  unfold all_space. rewrite !forallb_forall. intros H c Hc. apply H.
  apply list_elem_of_In. apply list_elem_of_In in Hc. by apply elem_of_reverse.
Qed.

Lemma rstrip_all_space s ws : all_space ws → rstrip (s ++ ws) = rstrip s.
Proof.
  intros Hws. unfold rstrip. rewrite reverse_app.
  by rewrite lstrip_all_space by (by apply all_space_reverse).
Qed.

Lemma rstrip_last s c : last s = Some c → isspace c = false → rstrip s = s.
Proof.
  intros Hl Hc. unfold rstrip.
  rewrite (lstrip_head (reverse s) c) by (by rewrite ?head_reverse).
  apply reverse_involutive.
Qed.

(** Trailing whitespace is cut behind a string that ends in a
    non-whitespace character, never inside it. *)
Lemma rstrip_app_keep a b c :
  last a = Some c → isspace c = false → rstrip (a ++ b) = a ++ rstrip b.
Proof.
  intros Hl Hc. unfold rstrip. rewrite reverse_app, lstrip_app.
  rewrite (lstrip_head (reverse a) c) by (by rewrite ?head_reverse).
  destruct (lstrip (reverse b)) as [| x t] eqn:Hb.
  - cbn. by rewrite reverse_involutive, app_nil_r.
  - by rewrite reverse_app, reverse_involutive.
Qed.

Lemma span_word_app w r :
  no_space w → (∀ c, head r = Some c → isspace c = true) → span_word (w ++ r) = (w, r).
Proof.
  unfold no_space. intros Hw Hr. induction w as [| c w IH]; cbn.
  - destruct r as [| c r]; [done |]. cbn. by rewrite (Hr c).
  - cbn in Hw. apply andb_true_iff in Hw as [Hc Hw].
    apply negb_true_iff in Hc. rewrite Hc, IH by done. done.
Qed.

Lemma no_space_head w : no_space w → w ≠ [] → ∃ c, head w = Some c ∧ isspace c = false.
Proof.
  unfold no_space. destruct w as [| c w]; [done |]. cbn.
  intros [Hc _]%andb_true_iff _. exists c. by apply negb_true_iff in Hc.
Qed.

Lemma all_space_head ws c : all_space ws → head ws = Some c → isspace c = true.
Proof.
  unfold all_space. destruct ws as [| c0 ws]; [done |]. cbn.
  intros [Hc _]%andb_true_iff [= ->]. done.
Qed.

Lemma trimmed_nonempty s : trimmed s → s ≠ [].
Proof. intros (c & Hc & _). by destruct s. Qed.

(** A line made of a word, whitespace and a rest that starts with a
    non-whitespace character splits into the word and the rest, whatever
    whitespace leads it. *)
Lemma split1_two ws1 w ws2 r c :
  all_space ws1 → no_space w → w ≠ [] → all_space ws2 → ws2 ≠ [] →
  head r = Some c → isspace c = false →
  split1 (ws1 ++ w ++ ws2 ++ r) = [w; r].
Proof.
  intros Hws1 Hw Hwne Hws2 Hws2ne Hr Hc. unfold split1.
  destruct (no_space_head w Hw Hwne) as (c0 & Hc0 & Hsp0).
  rewrite lstrip_all_space by done.
  rewrite (lstrip_head (w ++ ws2 ++ r) c0) by (try done; by destruct w).
  assert (span_word (w ++ ws2 ++ r) = (w, ws2 ++ r)) as Hspan.
  { apply span_word_app; [done |].
    intros x Hx. apply (all_space_head ws2); [done | by destruct ws2]. }
  destruct w as [| x w]; [done |].
  change ((x :: w) ++ ws2 ++ r) with (x :: (w ++ ws2 ++ r)) in *.
  cbv beta iota. rewrite Hspan.
  rewrite lstrip_all_space, (lstrip_head r c) by done.
  by destruct r.
Qed.

(** What [strip] returns is empty or has no whitespace at either end. *)
Lemma lstrip_result s : lstrip s = [] ∨ ∃ c, head (lstrip s) = Some c ∧ isspace c = false.
Proof.
  induction s as [| c s IH]; cbn; [by left |].
  destruct (isspace c) eqn:Hc; [done |]. right. by exists c.
Qed.

Lemma lstrip_suffix s : ∃ ws, s = ws ++ lstrip s.
Proof.
  induction s as [| c s [ws IH]]; cbn; [by exists [] |].
  destruct (isspace c); [| by exists []].
  exists (c :: ws). cbn. by rewrite <- IH.
Qed.

Lemma last_app_nonempty {A} (l k : list A) : k ≠ [] → last (l ++ k) = last k.
Proof.
  intros Hk. destruct k as [| x k] using rev_ind; [done |].
  by rewrite app_assoc, !last_snoc.
Qed.

Lemma lstrip_nil_all_space l : lstrip l = [] → all_space l.
Proof.
  unfold all_space. induction l as [| x l IH]; cbn; [done |].
  destruct (isspace x); [by apply IH | done].
Qed.

Lemma strip_result s : strip s = [] ∨ trimmed (strip s).
Proof.
  unfold strip, rstrip.
  destruct (lstrip_result s) as [-> | (c & Hc & Hsp)]; [by left |].
  set (t := lstrip s) in *.
  assert (last (reverse t) = Some c) as Hlast.
  { rewrite <- head_reverse. by rewrite reverse_involutive. }
  destruct (lstrip_suffix (reverse t)) as [ws Hws].
  destruct (lstrip_result (reverse t)) as [Hnil | (c' & Hc' & Hsp')].
  { exfalso. pose proof (lstrip_nil_all_space _ Hnil) as Hall.
    unfold all_space in Hall. rewrite forallb_forall in Hall.
    assert (isspace c = true) as Habs.
    { apply Hall, list_elem_of_In. apply last_Some_elem_of in Hlast. done. }
    congruence. }
  right. set (u := lstrip (reverse t)) in *.
  assert (u ≠ []) as Hune by (by destruct u).
  exists c. split_and!.
  - rewrite head_reverse. rewrite Hws in Hlast. by rewrite last_app_nonempty in Hlast.
  - done.
  - exists c'. split; [| done]. rewrite <- head_reverse. by rewrite reverse_involutive.
Qed.

Lemma strip_padded ws1 s ws3 : all_space ws1 → trimmed s → all_space ws3 →
  strip (ws1 ++ s ++ ws3) = s.
Proof.
  intros Hws1 (c & Hc & Hsp & c' & Hc' & Hsp') Hws3. unfold strip.
  rewrite lstrip_all_space by done.
  rewrite (lstrip_head (s ++ ws3) c) by (try done; by destruct s).
  rewrite rstrip_all_space by done. by apply (rstrip_last s c').
Qed.

Lemma startswith_nonempty s p : startswith s p = true → p ≠ [] → s ≠ [].
Proof. by destruct p, s. Qed.

(** X4: [extract_pic_prompt] recovers the prompt whatever whitespace
    surrounds it. For a message made of a whitespace-free word that
    starts with /pic, some whitespace, and a prompt with no whitespace at
    its ends, all possibly padded with whitespace on both sides, the
    result is exactly that prompt. *)
Theorem X4_extract_pic_prompt_recovers :
  ∀ (m : Message) (ws1 c ws2 p ws3 : list N),
    text m = Some (ws1 ++ c ++ ws2 ++ p ++ ws3) →
    all_space ws1 → no_space c → startswith c (lit "/pic") = true →
    all_space ws2 → ws2 ≠ [] → trimmed p → all_space ws3 →
    extract_pic_prompt m = p.
Proof.
  intros m ws1 c ws2 p ws3 Ht Hws1 Hc Hpic Hws2 Hne Hp Hws3.
  assert (c ≠ []) as Hcne by (by apply (startswith_nonempty c (lit "/pic"))).
  destruct (no_space_head c Hc Hcne) as (x & Hx & Hxsp).
  destruct Hp as (y & Hy & Hysp & z & Hz & Hzsp).
  assert (p ≠ []) as Hpne by (by destruct p).
  assert (trimmed (c ++ ws2 ++ p)) as Htr.
  { exists x. split_and!; [by destruct c | done |]. exists z. split; [| done].
    rewrite (last_app_nonempty c (ws2 ++ p)) by (by destruct ws2).
    by rewrite (last_app_nonempty ws2 p). }
  unfold extract_pic_prompt, text_or_empty. rewrite Ht. cbn [default]. unfold id.
  replace (ws1 ++ c ++ ws2 ++ p ++ ws3) with (ws1 ++ (c ++ ws2 ++ p) ++ ws3)
    by (by rewrite <- !app_assoc).
  rewrite strip_padded by done.
  rewrite (proj2 (nonempty_true _)) by (by destruct c). cbn [negb].
  rewrite <- (app_nil_l (c ++ ws2 ++ p)), (split1_two [] c ws2 p y) by done.
  rewrite Hpic. apply strip_trimmed. exists y. split_and!; [done .. |]. by exists z.
Qed.

(** X5: what [extract_pic_prompt] returns is empty or has no whitespace
    at its ends, and it is not empty only when the first word of the
    message starts with /pic and something follows that word. *)
Theorem X5_extract_pic_prompt_shape :
  ∀ (m : Message),
    extract_pic_prompt m = []
    ∨ (trimmed (extract_pic_prompt m)
       ∧ ∃ t p0 p1 rest, text m = Some t
           ∧ split1 (strip t) = p0 :: p1 :: rest
           ∧ startswith p0 (lit "/pic") = true
           ∧ extract_pic_prompt m = strip p1).
Proof.
  intros m. unfold extract_pic_prompt, text_or_empty.
  destruct (text m) as [t |]; [| by left]. cbn [default]. unfold id.
  destruct (negb (nonempty (strip t))); [by left |].
  destruct (split1 (strip t)) as [| p0 [| p1 rest]] eqn:Hs; [by left | |].
  { destruct (startswith p0 (lit "/pic")); by left. }
  destruct (startswith p0 (lit "/pic")) eqn:Hpic; [| by left].
  destruct (strip_result p1) as [-> | Htr]; [by left |].
  right. split; [done |]. by exists t, p0, p1, rest.
Qed.

(** X6: a new /redeem message that carries the configured code unlocks
    its sender, whatever whitespace surrounds the code and whatever the
    first word of the message is. The code is what import left of the
    environment value: trimmed, and not empty. *)
Theorem X6_redeem_with_code_unlocks :
  ∀ (cfg : Config) (env : list N) (s : State) (u : Update) (m : Message)
    (ws1 word ws2 ws3 : list N),
    ACCESS_CODE cfg = strip env → ACCESS_CODE cfg ≠ [] →
    message u = Some m →
    (_already_processed (seen s) u).1 = false →
    text m = Some (ws1 ++ word ++ ws2 ++ ACCESS_CODE cfg ++ ws3) →
    all_space ws1 → no_space word → word ≠ [] →
    all_space ws2 → ws2 ≠ [] → all_space ws3 →
    let r := redeem_cmd cfg s u in
    run_events r = [ReplyText MSG_ACCESS_UNLOCKED]
    ∧ _redeemed_ids (run_state r) = {[from_user_id m]} ∪ _redeemed_ids s
    ∧ _is_allowed_user cfg (_redeemed_ids (run_state r)) (from_user_id m) = true.
Proof.
  intros cfg env s u m ws1 word ws2 ws3 Henv Hcode Hm Hnew Ht Hws1 Hw Hwne Hws2 Hne Hws3 r.
  assert (trimmed (ACCESS_CODE cfg)) as Htr.
  { destruct (strip_result env) as [Hnil | Htr]; rewrite <- Henv in *; done. }
  pose proof Htr as (c & Hc & Hsp & _).
  assert (r = returned {| seen := (_already_processed (seen s) u).2;
                          _redeemed_ids := {[from_user_id m]} ∪ _redeemed_ids s |}
                       [ReplyText MSG_ACCESS_UNLOCKED]) as ->.
  { unfold r, redeem_cmd, text_or_empty.
    rewrite check_seen_eq, Hm, Hnew, Ht. cbn [default]. unfold id.
    rewrite (proj2 (nonempty_true _) Hcode). cbn [negb].
    rewrite (split1_two ws1 word ws2 (ACCESS_CODE cfg ++ ws3) c)
      by (try done; by destruct (ACCESS_CODE cfg)).
    rewrite <- (app_nil_l (ACCESS_CODE cfg ++ ws3)), strip_padded by done.
    by rewrite bool_decide_eq_true_2. }
  cbn. split_and!; [done | done |].
  apply is_allowed_spec. destruct (bool_decide _).
  - right. split; [done | set_solver].
  - rewrite (proj2 (nonempty_true _) Hcode). set_solver.
Qed.

(** X7: with a configured prefix, what import left of the environment
    value and not empty, the dispatched prompt is the prefix followed by
    a space and the user prompt with its trailing whitespace cut: it
    always begins with the whole prefix, and a blank prompt gives the
    prefix alone. *)
Theorem X7_prefix_is_kept_whole :
  ∀ (cfg : Config) (env prompt : list N),
    DEFAULT_PROMPT_PREFIX cfg = strip env → DEFAULT_PROMPT_PREFIX cfg ≠ [] →
    _prepend_prefix cfg prompt = DEFAULT_PROMPT_PREFIX cfg ++ rstrip (lit " " ++ prompt)
    ∧ DEFAULT_PROMPT_PREFIX cfg `prefix_of` _prepend_prefix cfg prompt
    ∧ (all_space prompt → _prepend_prefix cfg prompt = DEFAULT_PROMPT_PREFIX cfg).
Proof.
  intros cfg env prompt Henv Hne.
  assert (trimmed (DEFAULT_PROMPT_PREFIX cfg)) as (c & Hc & Hsp & c' & Hc' & Hsp').
  { destruct (strip_result env) as [Hnil | Htr]; rewrite <- Henv in *; done. }
  assert (_prepend_prefix cfg prompt
          = DEFAULT_PROMPT_PREFIX cfg ++ rstrip (lit " " ++ prompt)) as Heq.
  { unfold _prepend_prefix, strip. rewrite (proj2 (nonempty_true _) Hne).
    rewrite (lstrip_head _ c) by (try done; by destruct (DEFAULT_PROMPT_PREFIX cfg)).
    by apply (rstrip_app_keep _ _ c'). }
  rewrite Heq. split_and!; [done | by eexists |].
  intros Hall.
  assert (rstrip (lit " " ++ prompt) = []) as ->; [| by rewrite app_nil_r].
  rewrite <- (app_nil_l (lit " " ++ prompt)). rewrite rstrip_all_space; [done |].
  unfold all_space in *. cbn. done.
Qed.

(** X4 on a padded command addressed to the bot by name. *)
Lemma X4_extract_pic_prompt_recovers_witness :
  let m := text_message 7 PRIVATE 1 42 "  /pic@tang_bot   a red bicycle  " in
  all_space (lit "  ") ∧ no_space (lit "/pic@tang_bot")
  ∧ trimmed (lit "a red bicycle")
  ∧ extract_pic_prompt m = lit "a red bicycle".
Proof.
  intros m.
  assert (all_space (lit "  ")) as H1 by done.
  assert (no_space (lit "/pic@tang_bot")) as H2 by done.
  assert (all_space (lit "   ")) as H3 by done.
  assert (trimmed (lit "a red bicycle")) as H4.
  { exists 97%N. split_and!; [done | done |]. by exists 101%N. }
  exact (conj H1 (conj H2 (conj H4
    (X4_extract_pic_prompt_recovers m (lit "  ") (lit "/pic@tang_bot") (lit "   ")
       (lit "a red bicycle") (lit "  ") eq_refl H1 H2 eq_refl H3 ltac:(done) H4 H1)))).
Defined.

(** X6 on a concrete message: the code padded with blanks. *)
Lemma X6_redeem_with_code_unlocks_witness :
  let cfg := with_access ∅ "SECRET" cfg_open in
  let m := text_message 7 PRIVATE 2 42 "/redeem  SECRET " in
  ACCESS_CODE cfg = strip (lit " SECRET ")
  ∧ (_already_processed (seen state_init) (update_of m)).1 = false
  ∧ run_events (redeem_cmd cfg state_init (update_of m)) = [ReplyText MSG_ACCESS_UNLOCKED]
  ∧ _is_allowed_user cfg (_redeemed_ids (run_state (redeem_cmd cfg state_init (update_of m))))
      42 = true.
Proof.
  intros cfg m.
  assert (ACCESS_CODE cfg = strip (lit " SECRET ")) as Henv by (vm_compute; reflexivity).
  assert ((_already_processed (seen state_init) (update_of m)).1 = false) as Hnew
    by (vm_compute; reflexivity).
  pose proof (X6_redeem_with_code_unlocks cfg (lit " SECRET ") state_init (update_of m) m
                [] (lit "/redeem") (lit "  ") (lit " ") Henv ltac:(done) eq_refl Hnew
                eq_refl ltac:(done) ltac:(done) ltac:(done) ltac:(done) ltac:(done)
                ltac:(done)) as Hx.
  cbv zeta in Hx. destruct Hx as (Hev & _ & Hok).
  exact (conj Henv (conj Hnew (conj Hev Hok))).
Defined.

(** X7 on a concrete prefix and a prompt with trailing blanks. *)
Lemma X7_prefix_is_kept_whole_witness :
  let cfg := with_prefix "keep the face," cfg_open in
  DEFAULT_PROMPT_PREFIX cfg = strip (lit "  keep the face, ")
  ∧ DEFAULT_PROMPT_PREFIX cfg ≠ []
  ∧ _prepend_prefix cfg (lit "cat  ") = lit "keep the face, cat".
Proof.
  intros cfg.
  assert (DEFAULT_PROMPT_PREFIX cfg = strip (lit "  keep the face, ")) as Henv
    by (vm_compute; reflexivity).
  assert (DEFAULT_PROMPT_PREFIX cfg ≠ []) as Hne by done.
  destruct (X7_prefix_is_kept_whole cfg _ (lit "cat  ") Henv Hne) as (Heq & _).
  refine (conj Henv (conj Hne _)). rewrite Heq. vm_compute. reflexivity.
Defined.

(** * Further properties of the request pipeline *)

(** X8: a requester who is not allowed gets exactly one reply, the
    access-restricted notice (with the hint to redeem iff a code is
    configured), and the provider is never called: for /pic always, for
    free text whenever the chat is not a group and the text is not empty,
    even if it is blank or looks like a command. Access is checked before
    the prompt. *)
Theorem X8_denied_requester :
  ∀ (b64decode : json → pyresult (list byte)) (lower : list N → list N) (cfg : Config)
    (s : State) (u : Update) (m : Message) (w : World),
    message u = Some m →
    (_already_processed (seen s) u).1 = false →
    _is_allowed_user cfg (_redeemed_ids s) (from_user_id m) = false →
    pic_cmd b64decode lower cfg s u w
      = returned (check_seen s u).2
          [ReplyText (if nonempty (ACCESS_CODE cfg) then MSG_RESTRICTED_PIC
                      else MSG_RESTRICTED_PLAIN)]
    ∧ replies (run_events (pic_cmd b64decode lower cfg s u w)) = 1%nat
    ∧ provider_calls (run_events (pic_cmd b64decode lower cfg s u w)) = 0%nat
    ∧ (text m ≠ None → text m ≠ Some [] → is_group (chat_type m) = false →
       handle_text b64decode lower cfg s u w
         = returned (check_seen s u).2
             [ReplyText (if nonempty (ACCESS_CODE cfg) then MSG_RESTRICTED_TEXT
                         else MSG_RESTRICTED_PLAIN)]).
Proof.
  intros b64decode lower cfg s u m w Hm Hnew Hden.
  assert (pic_cmd b64decode lower cfg s u w
          = returned (check_seen s u).2
              [ReplyText (if nonempty (ACCESS_CODE cfg) then MSG_RESTRICTED_PIC
                          else MSG_RESTRICTED_PLAIN)]) as Hpic.
  { unfold pic_cmd. rewrite check_seen_eq, Hm, Hnew. cbn -[extract_pic_prompt].
    rewrite Hden. cbn. by destruct (nonempty (ACCESS_CODE cfg)). }
  rewrite Hpic. split_and!; [done | | |].
  - cbn. by destruct (nonempty (ACCESS_CODE cfg)).
  - cbn. by destruct (nonempty (ACCESS_CODE cfg)).
  - intros Hsome Hne Hpriv. unfold handle_text, text_or_empty.
    rewrite check_seen_eq, Hm, Hnew. cbn -[strip startswith lit].
    destruct (text m) as [[| c t] |]; [done | | done].
    cbn -[strip startswith lit]. rewrite Hpriv, Hden. cbn.
    by destruct (nonempty (ACCESS_CODE cfg)).
Qed.

(** X9: when generation succeeds the requester gets exactly one reply,
    the photo under the file name result.png, and its caption echoes the
    prompt as the requester wrote it, without the configured prefix. *)
Theorem X9_success_photo_reply :
  ∀ (b64decode : json → pyresult (list byte)) (lower : list N → list N) (cfg : Config)
    (w : World) (user_prompt : list N) (evs : list Event) (img : list byte),
    generate_image_from_reference b64decode cfg w user_prompt (REF_BYTES cfg)
      = (evs, Return img) →
    let photo := ReplyPhoto img (lit "result.png") (caption_of user_prompt) in
    _generate_and_reply b64decode lower cfg w user_prompt
      = (SendAction :: evs ++ [photo], true)
    ∧ reply_events (_generate_and_reply b64decode lower cfg w user_prompt).1 = [photo]
    ∧ (∀ s u m, message u = Some m →
         (_already_processed (seen s) u).1 = false →
         _is_allowed_user cfg (_redeemed_ids s) (from_user_id m) = true →
         extract_pic_prompt m = user_prompt → user_prompt ≠ [] →
         reply_events (run_events (pic_cmd b64decode lower cfg s u w)) = [photo]
         ∧ run_returned (pic_cmd b64decode lower cfg s u w) = true).
Proof.
  intros b64decode lower cfg w user_prompt evs img Hgen photo.
  pose proof (reply_events_provider b64decode cfg w user_prompt (REF_BYTES cfg)) as Hnone.
  assert (_generate_and_reply b64decode lower cfg w user_prompt
          = (SendAction :: evs ++ [photo], true)) as Hrun.
  { unfold _generate_and_reply. by rewrite Hgen. }
  assert (reply_events (_generate_and_reply b64decode lower cfg w user_prompt).1 = [photo])
    as Hreply.
  { rewrite Hrun. rewrite Hgen in Hnone. cbn in Hnone |- *.
    unfold reply_events in *. by rewrite List.filter_app, Hnone. }
  split_and!; [done | done |].
  intros s u m Hm Hnew Hok Hp Hne. subst user_prompt.
  rewrite (pic_cmd_dispatch b64decode lower cfg s u m w) by done.
  rewrite generate_run_events. split; [done |].
  unfold generate_run. by rewrite Hrun.
Qed.

(** X10: an exception of the provider layer that is not [ImageGenError]
    is not caught. The requester then gets no reply at all and the
    handler is left by the exception. This is what happens when the POST
    itself fails (the client raises) while the selected adapter has its
    key: for an admitted /pic the only events are the chat action and
    the one POST. *)
Theorem X10_uncaught_failure_sends_nothing :
  ∀ (b64decode : json → pyresult (list byte)) (lower : list N → list N) (cfg : Config)
    (w : World) (user_prompt : list N),
    (∀ evs,
       generate_image_from_reference b64decode cfg w user_prompt (REF_BYTES cfg)
         = (evs, RaiseOther) →
       _generate_and_reply b64decode lower cfg w user_prompt = (SendAction :: evs, false)
       ∧ reply_events (_generate_and_reply b64decode lower cfg w user_prompt).1 = [])
    ∧ (selected_key cfg ≠ [] → (∀ req, http_post w req = None) →
       generate_image_from_reference b64decode cfg w user_prompt (REF_BYTES cfg)
         = ([HttpPost (selected_request cfg w user_prompt)], RaiseOther)
       ∧ ∀ s u m, message u = Some m →
           (_already_processed (seen s) u).1 = false →
           _is_allowed_user cfg (_redeemed_ids s) (from_user_id m) = true →
           extract_pic_prompt m = user_prompt → user_prompt ≠ [] →
           run_events (pic_cmd b64decode lower cfg s u w)
             = [SendAction; HttpPost (selected_request cfg w user_prompt)]
           ∧ run_returned (pic_cmd b64decode lower cfg s u w) = false
           ∧ replies (run_events (pic_cmd b64decode lower cfg s u w)) = 0%nat).
Proof.
  intros b64decode lower cfg w user_prompt. split.
  - intros evs Hgen.
    pose proof (reply_events_provider b64decode cfg w user_prompt (REF_BYTES cfg)) as Hnone.
    unfold _generate_and_reply. rewrite Hgen in *. cbn in Hnone |- *. done.
  - intros Hkey Hpost.
    assert (generate_image_from_reference b64decode cfg w user_prompt (REF_BYTES cfg)
            = ([HttpPost (selected_request cfg w user_prompt)], RaiseOther)) as Hgen.
    { unfold generate_image_from_reference, selected_request, selected_key in *.
      unfold _stability_img2img, _openai_img_edit.
      destruct (bool_decide (PROVIDER cfg = lit "stability"));
        by rewrite (proj2 (nonempty_true _) Hkey), Hpost. }
    split; [done |].
    intros s u m Hm Hnew Hok Hp Hne. subst user_prompt.
    rewrite (pic_cmd_dispatch b64decode lower cfg s u m w) by done.
    unfold generate_run, _generate_and_reply. by rewrite Hgen.
Qed.

(** X11: without the key of the selected adapter nothing is sent to the
    provider: generation fails at once with the missing-key error, and
    when the lowered text of that error holds none of the three keywords
    the requester gets the generic failure notice. *)
Theorem X11_missing_key_no_request :
  ∀ (b64decode : json → pyresult (list byte)) (lower : list N → list N) (cfg : Config)
    (w : World) (user_prompt : list N),
    selected_key cfg = [] →
    generate_image_from_reference b64decode cfg w user_prompt (REF_BYTES cfg)
      = ([], RaiseImageGenError (missing_key_message cfg))
    ∧ provider_calls (_generate_and_reply b64decode lower cfg w user_prompt).1 = 0%nat
    ∧ (is_restricted (lower (missing_key_message cfg)) = false →
       _generate_and_reply b64decode lower cfg w user_prompt
         = ([SendAction; ReplyText MSG_WENT_WRONG], true)).
Proof.
  intros b64decode lower cfg w user_prompt Hkey.
  assert (generate_image_from_reference b64decode cfg w user_prompt (REF_BYTES cfg)
          = ([], RaiseImageGenError (missing_key_message cfg))) as Hgen.
  { unfold generate_image_from_reference, missing_key_message, selected_key in *.
    unfold _stability_img2img, _openai_img_edit.
    destruct (bool_decide (PROVIDER cfg = lit "stability"));
      by rewrite (proj2 (nonempty_false _) Hkey). }
  unfold _generate_and_reply. rewrite Hgen.
  fold (is_restricted (lower (missing_key_message cfg))).
  split_and!; [done | by destruct (is_restricted _) | by intros ->].
Qed.

Lemma openai_response_events b64decode w r :
  (openai_response b64decode w r).1 = []
  ∨ ∃ url, (openai_response b64decode w r).1 = [HttpGet url].
Proof.
  unfold openai_response. repeat case_match; cbn [fst]; eauto.
Qed.

(** X12: one attempt per generation. The provider layer makes no call,
    or one POST, or one POST followed by one GET, and the GET only with
    the OpenAI-style adapter; nothing is retried. *)
Theorem X12_single_attempt :
  ∀ (b64decode : json → pyresult (list byte)) (cfg : Config) (w : World)
    (prompt : list N) (ref : list byte),
    let evs := (generate_image_from_reference b64decode cfg w prompt ref).1 in
    (evs = []
     ∨ (∃ req, evs = [HttpPost req])
     ∨ (∃ req url, evs = [HttpPost req; HttpGet url] ∧ PROVIDER cfg ≠ lit "stability"))
    ∧ (count is_post evs ≤ 1)%nat ∧ (count is_get evs ≤ 1)%nat.
Proof.
  intros b64decode cfg w prompt ref evs.
  assert (evs = []
          ∨ (∃ req, evs = [HttpPost req])
          ∨ (∃ req url, evs = [HttpPost req; HttpGet url] ∧ PROVIDER cfg ≠ lit "stability"))
    as Hshape.
  { unfold evs, generate_image_from_reference, _stability_img2img, _openai_img_edit.
    case_bool_decide as Hprov.
    - repeat case_match; cbn; eauto.
    - destruct (negb (nonempty (OPENAI_API_KEY cfg))); [by left |].
      destruct (http_post w _) as [r |]; [| right; left; by eexists].
      pose proof (openai_response_events b64decode w r) as Hr.
      destruct (openai_response b64decode w r) as [evs' out]. cbn [fst] in *.
      destruct Hr as [-> | [url ->]]; right; [left | right]; eauto. }
  split; [done |].
  destruct Hshape as [-> | [(req & ->) | (req & url & -> & _)]]; cbn; lia.
Qed.

(** X8 on a concrete denial: an allow-list without requester 42, no code. *)
Lemma X8_denied_requester_witness :
  (_already_processed (seen state_init) pic_cat).1 = false
  ∧ _is_allowed_user cfg_locked (_redeemed_ids state_init) 42 = false
  ∧ run_events (pic_cmd b64decode_canonical ascii_lower cfg_locked state_init pic_cat offline)
    = [ReplyText MSG_RESTRICTED_PLAIN].
Proof.
  assert ((_already_processed (seen state_init) pic_cat).1 = false) as Hnew
    by (vm_compute; reflexivity).
  assert (_is_allowed_user cfg_locked (_redeemed_ids state_init) 42 = false) as Hden
    by (vm_compute; reflexivity).
  destruct (X8_denied_requester b64decode_canonical ascii_lower cfg_locked state_init
              pic_cat _ offline eq_refl Hnew Hden) as (Heq & _).
  exact (conj Hnew (conj Hden (f_equal run_events Heq))).
Defined.

(** X9 on a concrete success: the provider returns the image inline. *)
Lemma X9_success_photo_reply_witness :
  let w := answering openai_ok_b64 in
  generate_image_from_reference b64decode_canonical cfg_open w (lit "cat") (REF_BYTES cfg_open)
    = ([HttpPost (openai_request cfg_open w (lit "cat") (REF_BYTES cfg_open))],
       Return ["h"%byte; "i"%byte])
  ∧ reply_events (_generate_and_reply b64decode_canonical ascii_lower cfg_open w (lit "cat")).1
    = [ReplyPhoto ["h"%byte; "i"%byte] (lit "result.png") (caption_of (lit "cat"))].
Proof.
  intros w.
  assert (generate_image_from_reference b64decode_canonical cfg_open w (lit "cat")
            (REF_BYTES cfg_open)
          = ([HttpPost (openai_request cfg_open w (lit "cat") (REF_BYTES cfg_open))],
             Return ["h"%byte; "i"%byte])) as Hgen by (vm_compute; reflexivity).
  pose proof (X9_success_photo_reply b64decode_canonical ascii_lower cfg_open w (lit "cat")
                _ _ Hgen) as Hx.
  cbv zeta in Hx. destruct Hx as (_ & Hreply & _).
  exact (conj Hgen Hreply).
Defined.

(** X10 on a concrete outage: the provider cannot be reached. *)
Lemma X10_uncaught_failure_sends_nothing_witness :
  selected_key cfg_open ≠ []
  ∧ (∀ req, http_post offline req = None)
  ∧ generate_image_from_reference b64decode_canonical cfg_open offline (lit "cat")
      (REF_BYTES cfg_open)
    = ([HttpPost (selected_request cfg_open offline (lit "cat"))], RaiseOther).
Proof.
  assert (selected_key cfg_open ≠ []) as Hkey by done.
  assert (∀ req, http_post offline req = None) as Hpost by done.
  destruct (X10_uncaught_failure_sends_nothing b64decode_canonical ascii_lower cfg_open
              offline (lit "cat")) as [_ Hout].
  destruct (Hout Hkey Hpost) as [Hgen _].
  exact (conj Hkey (conj Hpost Hgen)).
Defined.

(** X11 on a concrete configuration without keys. *)
Lemma X11_missing_key_no_request_witness :
  selected_key cfg_nokey = []
  ∧ is_restricted (ascii_lower (missing_key_message cfg_nokey)) = false
  ∧ _generate_and_reply b64decode_canonical ascii_lower cfg_nokey offline (lit "cat")
    = ([SendAction; ReplyText MSG_WENT_WRONG], true).
Proof.
  assert (selected_key cfg_nokey = []) as Hkey by done.
  assert (is_restricted (ascii_lower (missing_key_message cfg_nokey)) = false) as Hlow
    by (vm_compute; reflexivity).
  destruct (X11_missing_key_no_request b64decode_canonical ascii_lower cfg_nokey offline
              (lit "cat") Hkey) as (_ & _ & Hrun).
  exact (conj Hkey (conj Hlow (Hrun Hlow))).
Defined.

(** X13: what the adapters never send and always send. The OpenAI-style
    form has exactly the fields model, prompt, size and n, with n = 1 and
    no response_format; its files are the reference image, followed by
    the mask exactly when a mask path is configured and the file could be
    read. The Stability form has no output_format, asks for one sample
    with prompt weight 1, carries the seed exactly when a non-empty seed
    is configured, and its only file is the reference image. *)
Theorem X13_request_shape :
  ∀ (cfg : Config) (w : World) (prompt : list N) (ref : list byte),
    let ro := openai_request cfg w prompt ref in
    let rs := stability_request cfg prompt ref in
    (req_data ro).*1 = [lit "model"; lit "prompt"; lit "size"; lit "n"]
    ∧ form_get (req_data ro) (lit "n") = Some (lit "1")
    ∧ form_get (req_data ro) (lit "response_format") = None
    ∧ req_files ro
      = (lit "image", png_part "ref.png" ref)
        :: match read_mask w (OPENAI_MASK_PATH cfg) with
           | Some mk =>
               if nonempty (OPENAI_MASK_PATH cfg) then [(lit "mask", png_part "mask.png" mk)]
               else []
           | None => []
           end
    ∧ form_get (req_data rs) (lit "output_format") = None
    ∧ form_get (req_data rs) (lit "samples") = Some (lit "1")
    ∧ form_get (req_data rs) (lit "text_prompts[0][weight]") = Some (lit "1")
    ∧ form_get (req_data rs) (lit "seed")
      = match STABILITY_SEED cfg with
        | Some seed => if nonempty seed then Some seed else None
        | None => None
        end
    ∧ req_files rs = [(lit "init_image", png_part "ref.png" ref)].
Proof.
  intros cfg w prompt ref ro rs. unfold ro, rs, openai_request, stability_request.
  cbn [req_data req_files].
  split_and!; try done.
  all: try by destruct (nonempty (OPENAI_MASK_PATH cfg)), (read_mask w (OPENAI_MASK_PATH cfg)).
  all: by destruct (STABILITY_SEED cfg) as [[| c seed] |].
Qed.

(** X14: two malformed 200 responses escape as exceptions that are not
    [ImageGenError]: a body the OpenAI-style adapter cannot parse as JSON,
    and a Stability artifact whose non-empty base64 value does not
    decode. *)
Theorem X14_malformed_success_escapes :
  ∀ (b64decode : json → pyresult (list byte)) (cfg : Config) (w : World)
    (prompt : list N) (ref : list byte) (r : Response),
    status_code r = 200 →
    (∀ e, OPENAI_API_KEY cfg ≠ [] →
       http_post w (openai_request cfg w prompt ref) = Some r →
       resp_json r = PyExc e →
       _openai_img_edit b64decode cfg w prompt ref
         = ([HttpPost (openai_request cfg w prompt ref)], RaiseOther))
    ∧ (∀ js a0 rest e, STABILITY_API_KEY cfg ≠ [] →
         http_post w (stability_request cfg prompt ref) = Some r →
         contains (default [] (resp_content_type r)) (lit "application/json") = true →
         resp_json r = PyOk (JObj js) →
         dict_lookup js (lit "artifacts") = Some (JArr (JObj a0 :: rest)) →
         truthy (dict_get a0 (lit "base64")) = true →
         b64decode (dict_get a0 (lit "base64")) = PyExc e →
         _stability_img2img b64decode cfg w prompt ref
           = ([HttpPost (stability_request cfg prompt ref)], RaiseOther)).
Proof.
  intros b64decode cfg w prompt ref r Hst. split.
  - intros e Hkey Hpost Hjson. unfold _openai_img_edit, openai_response.
    by rewrite (proj2 (nonempty_true _) Hkey), Hpost, Hst, Hjson.
  - intros js a0 rest e Hkey Hpost Hct Hjson Harts Hb64 Hdec.
    unfold _stability_img2img, stability_response, dict_get_default.
    rewrite (proj2 (nonempty_true _) Hkey), Hpost, Hst, Hct, Hjson, Harts.
    cbn -[lit]. by rewrite Hb64, Hdec.
Qed.

(** X14 on concrete responses. *)
Lemma X14_malformed_success_escapes_witness :
  let cfg := with_provider "stability" cfg_open in
  status_code garbled_json = 200
  ∧ _openai_img_edit b64decode_canonical cfg_open (answering garbled_json) (lit "cat") []
    = ([HttpPost (openai_request cfg_open (answering garbled_json) (lit "cat") [])],
       RaiseOther)
  ∧ _stability_img2img b64decode_canonical cfg (answering stability_bad_b64) (lit "cat") []
    = ([HttpPost (stability_request cfg (lit "cat") [])], RaiseOther).
Proof.
  intros cfg.
  destruct (X14_malformed_success_escapes b64decode_canonical cfg_open
              (answering garbled_json) (lit "cat") [] garbled_json eq_refl) as [Ho _].
  destruct (X14_malformed_success_escapes b64decode_canonical cfg
              (answering stability_bad_b64) (lit "cat") [] stability_bad_b64 eq_refl)
    as [_ Hs].
  refine (conj eq_refl (conj (Ho _ ltac:(done) eq_refl eq_refl) _)).
  exact (Hs _ _ [] (lit "Incorrect padding") ltac:(done) eq_refl eq_refl eq_refl eq_refl
           eq_refl eq_refl).
Defined.

(** X15: an update without a message (an edited message, say) is never
    recorded by the guard. Every command handler is then left by an
    exception before it sends anything, and the free-text handler returns
    quietly; the state is unchanged either way. *)
Theorem X15_update_without_message :
  ∀ (b64decode : json → pyresult (list byte)) (lower : list N → list N) (cfg : Config)
    (h : Handler) (s : State) (w : World),
    let r := run_handler b64decode lower cfg h s {| message := None |} w in
    run_state r = s
    ∧ run_events r = []
    ∧ run_returned r = match h with H_text => true | _ => false end.
Proof.
  intros b64decode lower cfg h s w.
  destruct h; cbn; by destruct s.
Qed.

(** X16: without a configured code nothing is ever redeemed. Whatever is
    delivered, the redeemed ids stay as they were, a new /redeem is
    answered that redeeming is not required, and whether a requester is
    allowed depends on the allow-list alone. *)
Theorem X16_no_code_no_redeem :
  ∀ (b64decode : json → pyresult (list byte)) (lower : list N → list N) (cfg : Config),
    ACCESS_CODE cfg = [] →
    (∀ s ds, _redeemed_ids (deliver_all b64decode lower cfg s ds).1 = _redeemed_ids s)
    ∧ (∀ s u m, message u = Some m → (_already_processed (seen s) u).1 = false →
         run_events (redeem_cmd cfg s u) = [ReplyText (lit "Redeem not required.")])
    ∧ (∀ red id, _is_allowed_user cfg red id = true ↔
                 _allow_ids cfg = ∅ ∨ id ∈ _allow_ids cfg).
Proof.
  intros b64decode lower cfg Hcode. split_and!.
  - intros s ds. apply set_eq. intros id. rewrite deliver_all_redeemed.
    split; [| by left]. intros [? | (ds1 & d & ds2 & _ & Hu)]; [done |].
    by destruct (unlocked_exact_code _ _ _ _ _ _ Hu) as (_ & Hne & _).
  - intros s u m Hm Hnew. unfold redeem_cmd.
    by rewrite check_seen_eq, Hm, Hnew, Hcode.
  - intros red id. rewrite is_allowed_spec, Hcode. cbn.
    case_bool_decide as Hal; [| tauto].
    split; [intros [? | [? _]]; [by right | done] | intros [? | ?]; [done | by left]].
Qed.

(** X16 on a concrete run: a /redeem where no code is configured. *)
Lemma X16_no_code_no_redeem_witness :
  ACCESS_CODE cfg_locked = []
  ∧ _redeemed_ids (deliver_all b64decode_canonical ascii_lower cfg_locked state_init
                     [redeem_delivery 1 42 "/redeem SECRET"]).1 = ∅
  ∧ _is_allowed_user cfg_locked ∅ 42 = false.
Proof.
  assert (ACCESS_CODE cfg_locked = []) as Hcode by done.
  destruct (X16_no_code_no_redeem b64decode_canonical ascii_lower cfg_locked Hcode)
    as (Hsame & _ & _).
  refine (conj Hcode (conj (Hsame state_init _) _)). vm_compute. reflexivity.
Defined.

(** * Properties of the reference image loader *)

(** X17: where the reference image comes from. With neither value set
    (or both blank) the loader fails at once and touches nothing. A path,
    when set, is the only source: the URL is never fetched, not even when
    the file cannot be opened, which is an error of its own. The URL is
    fetched only when no path is set, and a failed download and a
    download that is no image give the same download error. *)
Theorem X17_reference_source_priority :
  ∀ (Image : Type) (img_mode : Image → list N)
    (open_path : list N → pyresult Image) (get_url : list N → pyresult (list byte))
    (open_bytes : list byte → pyresult Image)
    (convert_rgba : Image → pyresult Image) (save_png : Image → pyresult (list byte))
    (path_env url_env : option (list N)),
    let path := strip (default [] path_env) in
    let url := strip (default [] url_env) in
    let run := load_reference_png_bytes Image img_mode open_path get_url open_bytes
                 convert_rgba save_png path_env url_env in
    (path = [] → url = [] →
       run = ([], RaiseRefImageError (lit "Set REFERENCE_IMAGE_PATH or REFERENCE_IMAGE_URL")))
    ∧ (path ≠ [] →
       run.1 = [OpenPath path]
       ∧ ∀ e, open_path path = PyExc e →
           run.2 = RaiseRefImageError (lit "Failed to open local ref image: " ++ e))
    ∧ (path = [] → url ≠ [] →
       run.1 = [GetUrl url]
       ∧ (∀ e, get_url url = PyExc e →
            run.2 = RaiseRefImageError (lit "Failed to download ref image: " ++ e))
       ∧ (∀ content e, get_url url = PyOk content → open_bytes content = PyExc e →
            run.2 = RaiseRefImageError (lit "Failed to download ref image: " ++ e))).
Proof.
  intros Image img_mode open_path get_url open_bytes convert_rgba save_png
    path_env url_env path url run.
  unfold run, load_reference_png_bytes. fold path url. split_and!.
  - by intros -> ->.
  - intros Hp. rewrite (proj2 (nonempty_true _) Hp). cbn [negb andb].
    split; [by destruct (open_path path) |]. by intros e ->.
  - intros -> Hu. rewrite (proj2 (nonempty_true _) Hu). cbn [nonempty negb andb].
    split_and!.
    + destruct (get_url url) as [content |]; [| done]. by destruct (open_bytes content).
    + by intros e ->.
    + by intros content e -> ->.
Qed.

(** X18: the bytes the loader returns are the PNG encoding of an image in
    mode RGB or RGBA, given that converting to RGBA yields an image in
    mode RGBA. *)
Theorem X18_reference_mode_enforced :
  ∀ (Image : Type) (img_mode : Image → list N)
    (open_path : list N → pyresult Image) (get_url : list N → pyresult (list byte))
    (open_bytes : list byte → pyresult Image)
    (convert_rgba : Image → pyresult Image) (save_png : Image → pyresult (list byte))
    (path_env url_env : option (list N)) (png : list byte),
    (∀ img img', convert_rgba img = PyOk img' → img_mode img' = lit "RGBA") →
    (load_reference_png_bytes Image img_mode open_path get_url open_bytes
       convert_rgba save_png path_env url_env).2 = RefReturn png →
    ∃ img, save_png img = PyOk png
           ∧ (img_mode img = lit "RGB" ∨ img_mode img = lit "RGBA").
Proof.
  intros Image img_mode open_path get_url open_bytes convert_rgba save_png
    path_env url_env png Hconv.
  assert (∀ img, to_png Image img_mode convert_rgba save_png img = RefReturn png →
            ∃ img', save_png img' = PyOk png
                    ∧ (img_mode img' = lit "RGB" ∨ img_mode img' = lit "RGBA")) as Hpng.
  { intros img. unfold to_png.
    destruct (bool_decide (img_mode img = lit "RGB")) eqn:Hrgb; cbn [orb].
    { destruct (save_png img) eqn:Hs; [| done]. intros [= ->]. exists img.
      apply bool_decide_eq_true in Hrgb. split; [done | by left]. }
    destruct (bool_decide (img_mode img = lit "RGBA")) eqn:Hrgba.
    { destruct (save_png img) eqn:Hs; [| done]. intros [= ->]. exists img.
      apply bool_decide_eq_true in Hrgba. split; [done | by right]. }
    destruct (convert_rgba img) as [img' |] eqn:Hc; [| done].
    destruct (save_png img') eqn:Hs; [| done]. intros [= ->]. exists img'.
    split; [done | right; by eapply Hconv]. }
  unfold load_reference_png_bytes.
  repeat case_match; cbn [snd]; try done; apply Hpng.
Qed.

(** X17 on a concrete environment: a path that does not open, and a URL. *)
Lemma X17_reference_source_priority_witness :
  let run := load_reference_png_bytes (list N) id toy_open toy_get toy_open_bytes
               toy_convert toy_save (Some (lit " missing.png ")) (Some (lit "https://x/ref.png")) in
  strip (lit " missing.png ") ≠ []
  ∧ run = ([OpenPath (lit "missing.png")],
           RaiseRefImageError (lit "Failed to open local ref image: No such file")).
Proof.
  intros run.
  assert (strip (lit " missing.png ") ≠ []) as Hp by (vm_compute; discriminate).
  pose proof (X17_reference_source_priority (list N) id toy_open toy_get toy_open_bytes
                toy_convert toy_save (Some (lit " missing.png "))
                (Some (lit "https://x/ref.png"))) as Hx.
  cbv zeta in Hx. destruct Hx as (_ & Hpath & _).
  destruct (Hpath Hp) as [Hev Herr].
  specialize (Herr (lit "No such file") ltac:(vm_compute; reflexivity)).
  split; [done |]. unfold run.
  destruct (load_reference_png_bytes _ _ _ _ _ _ _ _ _) as [evs out].
  cbn [fst snd] in Hev, Herr. rewrite Hev, Herr. vm_compute. reflexivity.
Defined.

(** X18 on a concrete image: a palette image is converted before saving. *)
Lemma X18_reference_mode_enforced_witness :
  (∀ img img', toy_convert img = PyOk img' → id img' = lit "RGBA")
  ∧ (load_reference_png_bytes (list N) id toy_open toy_get toy_open_bytes
       toy_convert toy_save (Some (lit "ref.gif")) None).2
    = RefReturn (byte_of <$> lit "RGBA")
  ∧ ∃ img, toy_save img = PyOk (byte_of <$> lit "RGBA")
           ∧ (id img = lit "RGB" ∨ id img = lit "RGBA").
Proof.
  assert (∀ img img', toy_convert img = PyOk img' → id img' = lit "RGBA") as Hconv
    by (by intros img img' [= <-]).
  assert ((load_reference_png_bytes (list N) id toy_open toy_get toy_open_bytes
             toy_convert toy_save (Some (lit "ref.gif")) None).2
          = RefReturn (byte_of <$> lit "RGBA")) as Hrun by (vm_compute; reflexivity).
  exact (conj Hconv (conj Hrun
    (X18_reference_mode_enforced (list N) id toy_open toy_get toy_open_bytes toy_convert
       toy_save (Some (lit "ref.gif")) None _ Hconv Hrun))).
Defined.

(** * Properties of the allow-list read at import *)

Lemma foldl_add_allow_id_None isd pint pieces :
  foldl (add_allow_id isd pint) None pieces = None.
Proof. by induction pieces. Qed.

Lemma foldl_add_allow_id isd pint pieces : ∀ ids0,
  match foldl (add_allow_id isd pint) (Some ids0) pieces with
  | Some ids =>
      ∀ n, n ∈ ids ↔
           n ∈ ids0 ∨ ∃ piece, piece ∈ pieces ∧ isdigit isd (strip piece) = true
                               ∧ pint (strip piece) = PyOk n
  | None =>
      ∃ piece e, piece ∈ pieces ∧ isdigit isd (strip piece) = true
                 ∧ pint (strip piece) = PyExc e
  end.
Proof.
  induction pieces as [| p ps IH]; intros ids0; cbn [foldl].
  { intros n. split; [by left |]. intros [? | (piece & Hin & _)]; [done |].
    by apply elem_of_nil in Hin. }
  unfold add_allow_id at 2. cbv zeta.
  destruct (isdigit isd (strip p)) eqn:Hd.
  - destruct (pint (strip p)) as [n0 | e] eqn:Hi.
    + specialize (IH ({[n0]} ∪ ids0)).
      destruct (foldl _ _ ps) as [ids |].
      * intros n. rewrite IH, elem_of_union, elem_of_singleton. split.
        -- intros [[-> | ?] | (piece & Hin & Hp)]; [right | by left | right].
           ++ exists p. split; [left | done].
           ++ exists piece. split; [by right | done].
        -- intros [? | (piece & [-> | Hin]%elem_of_cons & Hpd & Hpi)].
           ++ left. by right.
           ++ left. left. congruence.
           ++ right. by exists piece.
      * destruct IH as (piece & e & Hin & Hp). exists piece, e. split; [by right | done].
    + rewrite foldl_add_allow_id_None. exists p, e. split; [left | done].
  - specialize (IH ids0). destruct (foldl _ _ ps) as [ids |].
    + intros n. rewrite IH. split.
      * intros [? | (piece & Hin & Hp)]; [by left | right].
        exists piece. split; [by right | done].
      * intros [? | (piece & [-> | Hin]%elem_of_cons & Hpd & Hpi)]; [by left | | right].
        -- congruence.
        -- by exists piece.
    + destruct IH as (piece & e & Hin & Hp). exists piece, e. split; [by right | done].
Qed.

(** X19: what import makes of ALLOW_USER_IDS. An id is on the allow-list
    iff one of the comma-separated entries, trimmed, passes [isdigit] and
    [int] reads it as that id; every other entry (blank, signed, a name)
    is skipped without notice. So a value with no such entry leaves the
    allow-list empty, just as an unset one does. Import is stopped by an
    exception exactly when [int] raises on an entry that passed
    [isdigit]. *)
Theorem X19_allow_list_entries :
  ∀ (is_digit_char : N → bool) (py_int : list N → pyresult Z) (env : option (list N)),
    let pieces := split_on 44 (strip (default [] env)) in
    let valid piece n :=
      piece ∈ pieces ∧ isdigit is_digit_char (strip piece) = true
      ∧ py_int (strip piece) = PyOk n in
    (∀ ids, load_allow_ids is_digit_char py_int env = Some ids →
       ∀ n, n ∈ ids ↔ ∃ piece, valid piece n)
    ∧ ((∀ piece, piece ∈ pieces → isdigit is_digit_char (strip piece) = false) →
       load_allow_ids is_digit_char py_int env = Some ∅)
    ∧ (load_allow_ids is_digit_char py_int env = None ↔
       ∃ piece e, piece ∈ pieces ∧ isdigit is_digit_char (strip piece) = true
                  ∧ py_int (strip piece) = PyExc e).
Proof.
  intros isd pint env pieces valid. unfold valid.
  assert (load_allow_ids isd pint env = foldl (add_allow_id isd pint) (Some ∅) pieces)
    as Hload.
  { unfold load_allow_ids, pieces.
    destruct (strip (default [] env)) as [| c t] eqn:Hs; [| done].
    cbn. unfold add_allow_id. by cbn. }
  rewrite Hload. pose proof (foldl_add_allow_id isd pint pieces ∅) as Hfold.
  destruct (foldl (add_allow_id isd pint) (Some ∅) pieces) as [ids |] eqn:Hres.
  - split_and!.
    + intros ids' [= <-] n. rewrite Hfold. split; [| by right].
      intros [Hin | ?]; [by apply elem_of_empty in Hin | done].
    + intros Hnone. f_equal. apply set_eq. intros n. rewrite Hfold. split.
      * intros [? | (piece & Hin & Hd & _)]; [done |]. rewrite Hnone in Hd; done.
      * intros Hin. by apply elem_of_empty in Hin.
    + split; [done |]. intros (piece & e & Hin & Hd & Hi).
      assert (∀ n, pint (strip piece) ≠ PyOk n) as Hno by (intros n; congruence).
      exfalso. clear Hfold Hload. revert Hres. generalize (∅ : gset Z).
      induction pieces as [| p ps IH]; intros ids0; [by apply elem_of_nil in Hin |].
      cbn [foldl]. unfold add_allow_id at 2. cbv zeta.
      apply elem_of_cons in Hin as [<- | Hin].
      * rewrite Hd, Hi, foldl_add_allow_id_None. done.
      * destruct (isdigit isd (strip p)); [destruct (pint (strip p)) |];
          rewrite ?foldl_add_allow_id_None; try done; by apply IH.
  - split_and!; [done | | done].
    intros Hnone. destruct Hfold as (piece & e & Hin & Hd & _).
    rewrite Hnone in Hd; done.
Qed.

(** X19 on a concrete value: two ids among entries that are skipped. *)
Lemma X19_allow_list_entries_witness :
  load_allow_ids ascii_digit ascii_int (Some (lit " 12, -5, bob ,,7 ")) = Some {[12; 7]}
  ∧ (7 ∈ ({[12; 7]} : gset Z) ↔
     ∃ piece, piece ∈ split_on 44 (strip (lit " 12, -5, bob ,,7 "))
              ∧ isdigit ascii_digit (strip piece) = true
              ∧ ascii_int (strip piece) = PyOk 7).
Proof.
  assert (load_allow_ids ascii_digit ascii_int (Some (lit " 12, -5, bob ,,7 "))
          = Some {[12; 7]}) as Hload.
  { vm_compute. f_equal. }
  destruct (X19_allow_list_entries ascii_digit ascii_int (Some (lit " 12, -5, bob ,,7 ")))
    as (Hiff & _).
  exact (conj Hload (Hiff _ Hload 7)).
Defined.

(** * Provider failures that are not turned into [ImageGenError] *)

(** C5 does not hold at a 200 JSON response whose first artifact has a
    non-empty base64 value that does not decode: [base64.b64decode] is
    called unguarded (image_provider.py, line 152), so the Stability
    adapter neither yields bytes nor fails with [ImageGenError], it is
    left by the decoder's exception. The OpenAI-style adapter guards the
    same call and fails with [ImageGenError] on the same value. *)
Lemma C5_undecodable_artifact_escapes :
  let cfg := with_provider "stability" cfg_open in
  b64decode_canonical (JStr (lit "a")) = PyExc (lit "Incorrect padding")
  ∧ _stability_img2img b64decode_canonical cfg (answering stability_bad_b64) (lit "cat") []
    = ([HttpPost (stability_request cfg (lit "cat") [])], RaiseOther)
  ∧ _openai_img_edit b64decode_canonical cfg_open (answering openai_bad_b64) (lit "cat") []
    = ([HttpPost (openai_request cfg_open (answering openai_bad_b64) (lit "cat") [])],
       RaiseImageGenError (lit "Failed to decode OpenAI base64 image: Incorrect padding")).
Proof. vm_compute. repeat split; reflexivity. Qed.

(** C6 does not hold at a 200 response whose body is not JSON: [r.json()]
    is called unguarded (image_provider.py, line 86), so the OpenAI-style
    adapter does not fail with the no-payload [ImageGenError], it is left
    by the parser's exception. The Stability adapter guards the same call
    and fails with [ImageGenError] on the same response. *)
Lemma C6_unparsable_body_escapes :
  let cfg := with_provider "stability" cfg_open in
  _openai_img_edit b64decode_canonical cfg_open (answering garbled_json) (lit "cat") []
    = ([HttpPost (openai_request cfg_open (answering garbled_json) (lit "cat") [])],
       RaiseOther)
  ∧ _stability_img2img b64decode_canonical cfg (answering garbled_json) (lit "cat") []
    = ([HttpPost (stability_request cfg (lit "cat") [])],
       RaiseImageGenError (lit "Unexpected Stability response format: Expecting value")).
Proof. vm_compute. split; reflexivity. Qed.

(** C7 does not hold when the provider cannot be reached: the POST raises
    (image_provider.py, lines 82 and 138, unguarded) and
    [_generate_and_reply] catches [ImageGenError] only (main.py, line
    170), so an admitted /pic sends the chat action and the POST and then
    no notice at all. A failure of the second request, the download, is
    guarded in the same adapter and does get the generic notice. *)
Lemma C7_unreachable_provider_no_notice :
  (_already_processed (seen state_init) pic_cat).1 = false
  ∧ _is_allowed_user cfg_open (_redeemed_ids state_init) 42 = true
  ∧ run_events (pic_cmd b64decode_canonical ascii_lower cfg_open state_init pic_cat offline)
    = [SendAction; HttpPost (selected_request cfg_open offline (lit "cat"))]
  ∧ run_returned (pic_cmd b64decode_canonical ascii_lower cfg_open state_init pic_cat offline)
    = false
  ∧ replies
      (run_events (pic_cmd b64decode_canonical ascii_lower cfg_open state_init pic_cat offline))
    = 0%nat
  ∧ reply_events
      (run_events (pic_cmd b64decode_canonical ascii_lower cfg_open state_init pic_cat
                     (answering openai_ok_url)))
    = [ReplyText MSG_WENT_WRONG].
Proof. vm_compute. repeat split; reflexivity. Qed.
